(** * vprof/runner.py: running profilers and shipping their stats

    A shallow embedding of [run_profilers] and [run] from
    [src/vprof/runner.py], with the properties of the orchestration layer:
    configuration validation, registry-ordered execution, extraction of the
    profiled function's result and what reaches the remote host. *)

From Stdlib Require Import Ascii String ZArith.
From Stdlib.Strings Require Import Byte.
From stdpp Require Import base gmap strings list pretty.

Local Open Scope Z_scope.
Local Open Scope stdpp_scope.
Local Set Warnings "-clear-no-such-hyp".

(** ** Python data *)

(** Exceptions. [Raised] stands for whatever a profiler, a library or an
    object's method raises. *)
Inductive exn :=
| AmbiguousConfigurationError (msg : string)
| BadOptionError (msg : string)
| KeyError (key : string)
| TypeError (msg : string)
| Raised (cls msg : string).

Inductive result (A : Type) :=
| Ok (a : A)
| Err (e : exn).
Arguments Ok {A} a.
Arguments Err {A} e.

(** Python values, as far as the runner looks at them: the runner only
    tests the truth value of the profiled function's result. [VObject] is
    any other object, with what its truth test gives: a bool, or an
    exception (as [bool()] of a numpy array of two elements does). *)
#[warnings="-register-all"]
Inductive value :=
| VNone
| VBool (b : bool)
| VInt (n : Z)
| VStr (s : string)
| VList (xs : list value)
| VObject (cls : string) (truth : result bool).

(** [bool(v)], the test behind [if not result]: it returns or raises. It is
    taken to leave the heap as it is. *)
Definition truthy (v : value) : result bool :=
  match v with
  | VNone => Ok false
  | VBool b => Ok b
  | VInt n => Ok (negb (n =? 0))
  | VStr s => Ok (negb (String.length s =? 0)%nat)
  | VList xs => Ok (negb (length xs =? 0)%nat)
  | VObject _ truth => truth
  end.

(** Dict objects are mutable and shared by reference: they live in a heap.
    A profiler's result record is such an object, and so is [kwargs]. *)
Definition loc := positive.

(** ** Python strings *)

(** A Python [str] is written as the string of its UTF-8 bytes; a string
    that is not UTF-8 stands for no [str]. Python iterates a [str], takes
    its length and builds its [set] by code point, not by byte: in UTF-8 a
    code point begins at every byte that is not a continuation byte (binary
    10xxxxxx). *)
Definition is_continuation (b : Ascii.ascii) : bool :=
  let n := N_of_ascii b in ((128 <=? n) && (n <? 192))%N.

(** [s] goes on with the bytes of the code point before it. *)
Definition continues (s : string) : bool :=
  match s with
  | String b _ => is_continuation b
  | EmptyString => false
  end.

(** [list(s)]: the code points of [s], each a one-character [str]. *)
Fixpoint code_points (s : string) : list string :=
  match s with
  | EmptyString => []
  | String b rest =>
      let cps := code_points rest in
      if continues rest
      then match cps with
           | cp :: cps' => String b cp :: cps'
           | [] => [String b EmptyString]
           end
      else String b EmptyString :: cps
  end.

(** [run_object]: "An object (string or tuple) for profiling". *)
Definition callable := string.

Inductive RunObject :=
| RunPath (path : string)
| RunCall (func : callable) (args : list value) (kwargs : loc).

(** ** Effects *)

(** What the runner does to the outside, in order. [EvConstruct] and [EvRun]
    are logged when the constructor and [run()] of a profiler are entered,
    [EvDone] when [run()] has returned and its record is stored. *)
Inductive event :=
| EvConstruct (option : string) (run_object : RunObject)
| EvRun (option : string)
| EvDone (option : string) (record : loc)
| EvPrint (line : string)
| EvSend (url : string) (post_data : list byte).

Arguments EvDone option record%_positive.

Record state := State {
  heap : gmap loc (gmap string value);
  trace : list event
}.

Definition M (A : Type) : Type := state → result A * state.

Definition ret {A} (a : A) : M A := λ s, (Ok a, s).
Definition raise {A} (e : exn) : M A := λ s, (Err e, s).
Definition bind {A B} (m : M A) (k : A → M B) : M B :=
  λ s, match m s with
       | (Ok a, s') => k a s'
       | (Err e, s') => (Err e, s')
       end.

Notation "x <- m ;; k" := (bind m (λ x, k))
  (at level 100, m at next level, right associativity, only parsing).
Notation "m ;; k" := (bind m (λ _, k))
  (at level 100, right associativity, only parsing).

(** A pure computation that returns or raises. *)
Definition lift {A} (r : result A) : M A := λ s, (r, s).

Definition emit (e : event) : M unit :=
  λ s, (Ok tt, State (heap s) (trace s ++ [e])).

(** Foreign code (a profiler) acts on the heap. The log is the runner's own:
    what a profiler does is not written there. *)
Definition foreign {A} (f : gmap loc (gmap string value) →
                            result A * gmap loc (gmap string value)) : M A :=
  λ s, let '(r, h) := f (heap s) in (r, State h (trace s)).

(** [d[k]] and [del d[k]] on the dict object at [d]. *)
Definition dict_getitem (d : loc) (k : string) : M value :=
  λ s, match heap s !! d with
       | Some m => match m !! k with
                   | Some v => (Ok v, s)
                   | None => (Err (KeyError k), s)
                   end
       | None => (Err (TypeError "object is not subscriptable"), s)
       end.

Definition dict_delitem (d : loc) (k : string) : M unit :=
  λ s, match heap s !! d with
       | Some m => match m !! k with
                   | Some _ => (Ok tt, State (<[d := delete k m]> (heap s)) (trace s))
                   | None => (Err (KeyError k), s)
                   end
       | None => (Err (TypeError "object does not support item deletion"), s)
       end.

(** ** OrderedDict keyed by option code *)

Fixpoint od_lookup {V} (od : list (string * V)) (k : string) : option V :=
  match od with
  | [] => None
  | (k', v) :: od' => if decide (k' = k) then Some v else od_lookup od' k
  end.

(** [od[k] = v]: an existing key keeps its place, a new one goes last. *)
Fixpoint od_setitem {V} (od : list (string * V)) (k : string) (v : V)
  : list (string * V) :=
  match od with
  | [] => [(k, v)]
  | (k', v') :: od' =>
      if decide (k' = k) then (k', v) :: od' else (k', v') :: od_setitem od' k v
  end.

Definition od_getitem {V} (od : list (string * V)) (k : string) : M V :=
  match od_lookup od k with
  | Some v => ret v
  | None => raise (KeyError k)
  end.

(** ** Profilers *)

(** A profiler object: its class name and its [run()] method, which returns
    a reference to the record it built. *)
Record profiler_obj := ProfilerObj {
  class_name : string;
  prof_run : gmap loc (gmap string value) →
             result loc * gmap loc (gmap string value)
}.

(** A profiler class is its constructor. *)
Definition profiler_class := RunObject → gmap loc (gmap string value) →
  result profiler_obj * gmap loc (gmap string value).

(** The default of [kwargs] is evaluated once, when [def run] is executed:
    one dict object, at a fixed place of the heap. *)
Definition kwargs_default : loc := 1%positive.

Definition module_heap : gmap loc (gmap string value) :=
  {[ kwargs_default := ∅ ]}.

(** The four profiler classes of the registry, which [runner.py] imports
    from the modules [memory_profiler], [flame_graph], [code_heatmap] and
    [profiler]. *)
Class Profilers := {
  MemoryProfiler : profiler_class;
  FlameGraphProfiler : profiler_class;
  CodeHeatmapProfiler : profiler_class;
  Profiler : profiler_class
}.

(** The library functions [run] calls: [json.dumps], [str.encode('utf-8')],
    [gzip.compress] and [urllib.request.urlopen]. *)
Class Library := {
  json_dumps : list (string * gmap string value) → result string;
  encode_utf8 : string → list byte;
  gzip_compress : list byte → list byte;
  urlopen : string → list byte → result unit
}.

Section Runner.

Context `{!Profilers, !Library}.

Definition _PROFILERS : list (string * profiler_class) :=
  [ ("m", MemoryProfiler);
    ("c", FlameGraphProfiler);
    ("h", CodeHeatmapProfiler);
    ("p", Profiler) ].

(** [for option in prof_config: if option not in available_profilers: raise] *)
Fixpoint check_options (available_profilers : gset string)
    (prof_config : list string) : M unit :=
  match prof_config with
  | [] => ret tt
  | option :: rest =>
      if decide (option ∈ available_profilers)
      then check_options available_profilers rest
      else raise (BadOptionError ("Unknown option: " +:+ option))
  end.

(** The body of [for option, prof in present_profilers]. *)
Definition run_one (run_object : RunObject) (verbose : bool)
    (option : string) (prof : profiler_class)
    (run_stats : list (string * loc)) : M (list (string * loc)) :=
  emit (EvConstruct option run_object) ;;
  curr_profiler <- foreign (prof run_object) ;;
  (if verbose
   then emit (EvPrint ("Running " +:+ class_name curr_profiler +:+ "..."))
   else ret tt) ;;
  emit (EvRun option) ;;
  record <- foreign (prof_run curr_profiler) ;;
  emit (EvDone option record) ;;
  ret (od_setitem run_stats option record).

Fixpoint run_present (run_object : RunObject) (verbose : bool)
    (present_profilers : list (string * profiler_class))
    (run_stats : list (string * loc)) : M (list (string * loc)) :=
  match present_profilers with
  | [] => ret run_stats
  | (option, prof) :: rest =>
      run_stats' <- run_one run_object verbose option prof run_stats ;;
      run_present run_object verbose rest run_stats'
  end.

(** [((o, p) for o, p in _PROFILERS if o in prof_config)] *)
Definition present_profilers (prof_config : list string)
  : list (string * profiler_class) :=
  filter (λ op, op.1 ∈ prof_config) _PROFILERS.

Definition run_profilers (run_object : RunObject) (prof_config : string)
    (verbose : bool) : M (list (string * loc)) :=
  let config := code_points prof_config in
  if (size (list_to_set config : gset string) <? length config)%nat
  then raise (AmbiguousConfigurationError
                ("Profiler configuration " +:+ prof_config +:+ " is ambiguous"))
  else
    let available_profilers : gset string := list_to_set (_PROFILERS.*1) in
    check_options available_profilers config ;;
    run_present run_object verbose (present_profilers config) [].

(** The loop [for prof in run_stats] of [run]. *)
Fixpoint extract_result (run_stats : list (string * loc))
    (keys : list string) (result : value) : M value :=
  match keys with
  | [] => ret result
  | prof :: rest =>
      truth <- lift (truthy result) ;;
      result' <- (if negb truth
                 then record <- od_getitem run_stats prof ;;
                      dict_getitem record "result"
                 else ret result) ;;
      record <- od_getitem run_stats prof ;;
      dict_delitem record "result" ;;
      extract_result run_stats rest result'
  end.

(** The stats as [json.dumps] reads them: each record's current content. *)
Definition snapshot (h : gmap loc (gmap string value))
    (run_stats : list (string * loc))
  : option (list (string * gmap string value)) :=
  mapM (λ ol : string * loc, (λ d, (ol.1, d)) <$> h !! ol.2) run_stats.

Definition dumps_stats (run_stats : list (string * loc)) : M string :=
  λ s, match snapshot (heap s) run_stats with
       | Some snap => (json_dumps snap, s)
       | None => (Err (TypeError "Object is not JSON serializable"), s)
       end.

Definition send (url : string) (post_data : list byte) : M unit :=
  emit (EvSend url post_data) ;;
  (λ s, (urlopen url post_data, s)).

Definition run (func : callable) (options : string)
    (args : option (list value)) (kwargs : option loc)
    (host : option string) (port : option Z) : M value :=
  let args := default [] args in
  let kwargs := default kwargs_default kwargs in
  let host := default "localhost" host in
  let port := default 8000 port in
  run_stats <- run_profilers (RunCall func args kwargs) options false ;;
  result <- extract_result run_stats (run_stats.*1) VNone ;;
  text <- dumps_stats run_stats ;;
  let post_data := gzip_compress (encode_utf8 text) in
  send ("http://" +:+ host +:+ ":" +:+ pretty port) post_data ;;
  ret result.

End Runner.

(** Reading the log. *)
Definition is_send (ev : event) : bool :=
  match ev with EvSend _ _ => true | _ => false end.

Definition event_option (ev : event) : option string :=
  match ev with
  | EvConstruct o _ | EvRun o | EvDone o _ => Some o
  | EvPrint _ | EvSend _ _ => None
  end.

(** An event of running the profilers [codes] on [run_object]. *)
Definition profiler_event (codes : list string) (run_object : RunObject)
    (ev : event) : Prop :=
  match ev with
  | EvConstruct o ro => o ∈ codes ∧ ro = run_object
  | EvRun o | EvDone o _ => o ∈ codes
  | EvPrint _ => True
  | EvSend _ _ => False
  end.

(** The record at [l] is a dict without a ["result"] key. *)
Definition sanitized (h : gmap loc (gmap string value)) (l : loc) : Prop :=
  ∃ d, h !! l = Some d ∧ d !! "result" = None.

(** What the loop of [run] leaves in [result], given the ["result"] values
    of the records in iteration order: [if not result: result = v] at each
    pass, where the truth test may raise. *)
Fixpoint pick_result (res : value) (vals : list value) : result value :=
  match vals with
  | [] => Ok res
  | v :: vals' =>
      match truthy res with
      | Ok truth => pick_result (if negb truth then v else res) vals'
      | Err e => Err e
      end
  end.


(** The two errors of the validation step. *)
Definition validation_error (e : exn) : Prop :=
  match e with
  | AmbiguousConfigurationError _ | BadOptionError _ => True
  | _ => False
  end.

(** ** Instances for the examples *)

(** A profiler whose [run()] writes [record] at [l] and returns it. *)
Definition recording (name : string) (l : loc) (record : gmap string value)
  : profiler_class :=
  λ _ h, (Ok (ProfilerObj name (λ h', (Ok l, <[l := record]> h'))), h).

Arguments recording name l%_positive record.

(** A profiler whose [run()] raises. *)
Definition crashing (name : string) (e : exn) : profiler_class :=
  λ _ h, (Ok (ProfilerObj name (λ h', (Err e, h'))), h).

(** A profiler that reports how many keyword arguments it was given and
    leaves a mark in the [kwargs] dict it received. *)
Definition marking (name : string) (l : loc) : profiler_class :=
  λ run_object h,
    (Ok (ProfilerObj name (λ h',
       match run_object with
       | RunCall _ _ kwargs =>
           match h' !! kwargs with
           | Some d =>
               (Ok l, <[l := {[ "result" := VInt (Z.of_nat (size d)) ]}]>
                        (<[kwargs := <["seen" := VBool true]> d]> h'))
           | None => (Err (TypeError "kwargs is not a mapping"), h')
           end
       | RunPath _ => (Err (TypeError "not a callable"), h')
       end)), h).

Arguments marking name l%_positive.

(** A stand-in for [json.dumps]: the keys, in order. *)
Definition dumps_keys (snap : list (string * gmap string value))
  : result string :=
  Ok ("{" +:+ String.concat ", " (fst <$> snap) +:+ "}").

Definition reachable_host (url : string) (post_data : list byte)
  : result unit := Ok tt.

(** The interpreter state once the module is loaded. *)
Definition start : state := State module_heap [].

(** A registry for the examples: the function under test returns 0 to the
    first profiler that calls it and 5 to the second; the heatmap profiler
    raises; the last one reports the size of [kwargs] and marks it. *)
Definition mem_zero : profiler_class :=
  recording "MemoryProfiler" 2 {[ "result" := VInt 0 ]}.
Definition flame_five : profiler_class :=
  recording "FlameGraphProfiler" 3 {[ "result" := VInt 5 ]}.
Definition heat_crash : profiler_class :=
  crashing "CodeHeatmapProfiler" (Raised "RuntimeError" "no source").
Definition prof_mark : profiler_class := marking "Profiler" 5.


Definition demo_profilers : Profilers :=
  {| MemoryProfiler := mem_zero; FlameGraphProfiler := flame_five;
     CodeHeatmapProfiler := heat_crash; Profiler := prof_mark |}.


Definition demo_library : Library :=
  {| json_dumps := dumps_keys; encode_utf8 := String.list_byte_of_string;
     gzip_compress := id; urlopen := reachable_host |}.

Definition demo_run_profilers := @run_profilers demo_profilers.
Definition demo_run := @run demo_profilers demo_library.



(** A host that refuses the connection: [urlopen] raises. *)
Definition refusing_host (url : string) (post_data : list byte)
  : result unit := Err (Raised "URLError" "Connection refused").

Definition offline_library : Library :=
  {| json_dumps := dumps_keys; encode_utf8 := String.list_byte_of_string;
     gzip_compress := id; urlopen := refusing_host |}.



(** ** Further definitions: the profilers in turn, the collector's side *)

(** The profilers of a list constructed and run one after the other on
    [run_object], each on the heap the one before left: [entries] keeps, per
    profiler, its code, the record its [run()] returned and the class name
    of the object its constructor returned. *)
Inductive ran_in_turn (run_object : RunObject)
  : gmap loc (gmap string value) → list (string * profiler_class) →
    list (string * loc * string) → gmap loc (gmap string value) → Prop :=
| ran_none h : ran_in_turn run_object h [] [] h
| ran_next h o cls rest p h1 l h2 entries h' :
    cls run_object h = (Ok p, h1) →
    prof_run p h1 = (Ok l, h2) →
    ran_in_turn run_object h2 rest entries h' →
    ran_in_turn run_object h ((o, cls) :: rest)
      ((o, l, class_name p) :: entries) h'.








(** ** Further definitions: the log of a profiler, the module's start *)

(** The events of one profiler that ran to its end: [entry] is its code
    with the record it returned, and its class name. *)
Definition profiler_log (run_object : RunObject) (verbose : bool)
    (entry : string * loc * string) : list event :=
  EvConstruct entry.1.1 run_object ::
  (if verbose then [EvPrint ("Running " +:+ entry.2 +:+ "...")] else []) ++
  [EvRun entry.1.1; EvDone entry.1.1 entry.1.2].

(** An event [run_profilers] may log when asked for the profilers [codes]
    on [run_object]: lines are printed only when [verbose] is set, and
    nothing is sent. *)
Definition runner_event (codes : list string) (run_object : RunObject)
    (verbose : bool) (ev : event) : Prop :=
  match ev with
  | EvConstruct o ro => o ∈ codes ∧ ro = run_object
  | EvRun o | EvDone o _ => o ∈ codes
  | EvPrint _ => verbose = true
  | EvSend _ _ => False
  end.

(** The top of the module:
    [if not hasattr(builtins, 'initial_rss_size'):
         builtins.initial_rss_size = psutil.Process(os.getpid()).memory_info().rss].
    [rss] is what the measurement gives if it is made; [builtins] is the
    namespace of the [builtins] module. *)
Definition import_runner (rss : result Z) (builtins : gmap string value)
  : result (gmap string value) :=
  match builtins !! "initial_rss_size" with
  | Some _ => Ok builtins
  | None =>
      match rss with
      | Ok size => Ok (<["initial_rss_size" := VInt size]> builtins)
      | Err e => Err e
      end
  end.

(** ** Generic facts: sets of code points, ordered dicts *)

Lemma size_list_to_set_le (l : list string) :
  (size (list_to_set l : gset string) ≤ length l)%nat.
Proof.
  induction l as [|x l IH].
  - rewrite list_to_set_nil, size_empty. done.
  - rewrite list_to_set_cons, size_union_alt, size_singleton. simpl.
    assert (size (list_to_set l ∖ {[x]} : gset string) ≤ size (list_to_set l : gset string))%nat
      by (apply subseteq_size; set_solver).
    lia.
Qed.

(** [len(s) > len(set(s))] holds exactly when [s] repeats a code point. *)
Lemma size_list_to_set_lt (l : list string) :
  (size (list_to_set l : gset string) <? length l)%nat = true ↔ ¬ NoDup l.
Proof.
  rewrite Nat.ltb_lt. split.
  - intros Hlt Hnd. rewrite (size_list_to_set l Hnd) in Hlt. lia.
  - induction l as [|x l IH]; intros Hnd.
    + destruct Hnd. constructor.
    + rewrite list_to_set_cons. simpl. destruct (decide (x ∈ l)) as [Hin|Hout].
      * replace ({[x]} ∪ list_to_set l : gset string) with (list_to_set l : gset string)
          by set_solver.
        pose proof (size_list_to_set_le l). lia.
      * rewrite size_union by set_solver. rewrite size_singleton.
        assert (¬ NoDup l) as Hl by (intros H; apply Hnd; by constructor).
        specialize (IH Hl). lia.
Qed.

Lemma od_setitem_fresh {V} (od : list (string * V)) k v :
  k ∉ od.*1 → od_setitem od k v = od ++ [(k, v)].
Proof.
  induction od as [|[k' v'] od IH]; simpl; intros Hk; [done|].
  apply not_elem_of_cons in Hk as [Hne Hk].
  destruct (decide (k' = k)); [congruence|]. by rewrite IH.
Qed.

Lemma od_lookup_Some {V} (od : list (string * V)) k v :
  NoDup od.*1 → od_lookup od k = Some v ↔ (k, v) ∈ od.
Proof.
  induction od as [|[k' v'] od IH]; simpl; intros Hnd.
  - split; [done|]. by intros ?%elem_of_nil.
  - apply NoDup_cons in Hnd as [Hk' Hnd]. rewrite elem_of_cons.
    destruct (decide (k' = k)) as [->|Hne].
    + split; [intros [= ->]; by left|].
      intros [[= ->]|Hin]; [done|].
      destruct Hk'. apply list_elem_of_fmap. by exists (k, v).
    + rewrite IH by done. split; [by right|].
      intros [[= <- _]|?]; [done|done].
Qed.

Lemma od_lookup_is_Some {V} (od : list (string * V)) k :
  k ∈ od.*1 → is_Some (od_lookup od k).
Proof.
  induction od as [|[k' v'] od IH]; simpl.
  - by intros ?%elem_of_nil.
  - intros [->|Hin]%elem_of_cons.
    + rewrite decide_True by done. eauto.
    + destruct (decide (k' = k)); eauto.
Qed.

(** ** The runner *)

Section RunnerFacts.

Context `{!Profilers, !Library}.

Local Abbreviation chars := code_points.
Local Abbreviation target func args kwargs :=
  (RunCall func (default [] args) (default kwargs_default kwargs)).
Local Abbreviation address host port :=
  ("http://" +:+ default "localhost" host +:+ ":" +:+
     pretty (default 8000 port)).

Lemma registry_codes : _PROFILERS.*1 = ["m"; "c"; "h"; "p"].
Proof. reflexivity. Qed.

Lemma registry_codes_NoDup : NoDup _PROFILERS.*1.
Proof. rewrite registry_codes. apply (bool_decide_unpack _). by vm_compute. Qed.

(** *** Validation *)

Lemma check_options_ok available config s :
  Forall (λ o, o ∈ available) config →
  check_options available config s = (Ok tt, s).
Proof.
  induction 1 as [|o config Ho _ IH]; simpl; [done|].
  by rewrite decide_True.
Qed.

Lemma check_options_bad available pre option post s :
  Forall (λ o, o ∈ available) pre → option ∉ available →
  check_options available (pre ++ option :: post) s =
    (Err (BadOptionError ("Unknown option: " +:+ option)), s).
Proof.
  induction 1 as [|o pre Ho _ IH]; simpl; intros Hbad.
  - by rewrite decide_False.
  - rewrite decide_True by done. by apply IH.
Qed.

(** The first element of a list that fails a decidable test. *)
Lemma first_failing {A} (P : A → Prop) `{!∀ x, Decision (P x)} (l : list A) :
  (∃ x, x ∈ l ∧ ¬ P x) →
  ∃ pre x post, l = pre ++ x :: post ∧ Forall P pre ∧ ¬ P x.
Proof.
  induction l as [|a l IH]; intros (x & Hx & HP).
  - by apply elem_of_nil in Hx.
  - destruct (decide (P a)) as [Ha|Ha].
    + destruct IH as (pre & y & post & -> & Hpre & Hy).
      { apply elem_of_cons in Hx as [->|Hx]; [done|]. eauto. }
      exists (a :: pre), y, post. repeat split; [|done]. by constructor.
    + exists [], a, l. repeat split; [|done]. constructor.
Qed.

Lemma run_profilers_valid run_object prof_config verbose s :
  NoDup (chars prof_config) →
  Forall (λ o, o ∈ _PROFILERS.*1) (chars prof_config) →
  run_profilers run_object prof_config verbose s =
    run_present run_object verbose (present_profilers (chars prof_config)) [] s.
Proof.
  intros Hnd Hall. unfold run_profilers.
  destruct (_ <? _)%nat eqn:Hdup.
  { by apply size_list_to_set_lt in Hdup. }
  unfold bind. rewrite check_options_ok; [done|].
  eapply Forall_impl; [exact Hall|]. intros o Ho.
  by apply elem_of_list_to_set.
Qed.

Lemma check_options_inv available config s r s' :
  check_options available config s = (r, s') →
  s' = s ∧
  match r with
  | Ok _ => Forall (λ o, o ∈ available) config
  | Err e => ∃ pre option post,
      config = pre ++ option :: post ∧
      Forall (λ o, o ∈ available) pre ∧ (option ∉ available) ∧
      e = BadOptionError ("Unknown option: " +:+ option)
  end.
Proof.
  destruct (decide (Forall (λ o, o ∈ available) config)) as [Hall|Hbad].
  - rewrite check_options_ok by done. by intros [= <- <-].
  - apply not_Forall_Exists in Hbad; [|apply _].
    apply Exists_exists in Hbad.
    apply (first_failing (λ o, o ∈ available)) in Hbad
      as (pre & o & post & -> & Hpre & Ho).
    rewrite check_options_bad by done. intros [= <- <-].
    split; [done|]. by exists pre, o, post.
Qed.

Lemma elem_of_available o :
  o ∈ (list_to_set (_PROFILERS.*1) : gset string) ↔ o ∈ _PROFILERS.*1.
Proof. apply elem_of_list_to_set. Qed.

(** A run that gets past validation had a valid configuration. *)
Lemma run_profilers_inv run_object prof_config verbose s r s' :
  run_profilers run_object prof_config verbose s = (r, s') →
  (∃ e, r = Err e ∧ s' = s ∧ validation_error e ∧
        (¬ NoDup (chars prof_config) ∨
         ¬ Forall (λ o, o ∈ _PROFILERS.*1) (chars prof_config))) ∨
  (NoDup (chars prof_config) ∧
   Forall (λ o, o ∈ _PROFILERS.*1) (chars prof_config) ∧
   run_present run_object verbose (present_profilers (chars prof_config)) [] s = (r, s')).
Proof.
  unfold run_profilers. destruct (_ <? _)%nat eqn:Hdup.
  { apply size_list_to_set_lt in Hdup. intros [= <- <-]. left.
    eexists. split; [done|]. split; [done|]. split; [done|]. by left. }
  assert (NoDup (chars prof_config)) as Hnd.
  { destruct (decide (NoDup (chars prof_config))) as [|Hn]; [done|].
    apply size_list_to_set_lt in Hn. congruence. }
  unfold bind.
  destruct (check_options _ _ s) as [[[]|e] s1] eqn:Hchk;
    apply check_options_inv in Hchk as [-> Hchk].
  - intros Hrun. right. split; [done|]. split; [|done].
    eapply Forall_impl; [exact Hchk|]. intros o. apply elem_of_available.
  - destruct Hchk as (pre & o & post & Hcfg & _ & Ho & ->).
    intros [= <- <-]. left. eexists.
    split; [done|]. split; [done|]. split; [done|]. right.
    rewrite Hcfg. intros Hall. apply Forall_app in Hall as [_ Hall].
    apply Forall_cons in Hall as [Hin _]. by apply Ho, elem_of_available.
Qed.

Lemma present_codes config :
  (present_profilers config).*1 = filter (λ o, o ∈ config) _PROFILERS.*1.
Proof.
  unfold present_profilers, _PROFILERS.
  rewrite !fmap_cons, !filter_cons, !filter_nil. simpl.
  repeat case_decide; reflexivity.
Qed.

Lemma present_codes_NoDup config : NoDup (present_profilers config).*1.
Proof. rewrite present_codes. apply NoDup_filter, registry_codes_NoDup. Qed.

(** *** Running the present profilers *)

Lemma profiler_event_mono codes codes' ro ev :
  codes ⊆ codes' → profiler_event codes ro ev → profiler_event codes' ro ev.
Proof. intros Hsub. destruct ev; simpl; naive_solver. Qed.

Lemma profiler_event_not_send codes ro ev :
  profiler_event codes ro ev → is_send ev = false.
Proof. by destruct ev. Qed.

Lemma profiler_event_option codes ro ev o :
  profiler_event codes ro ev → event_option ev = Some o → o ∈ codes.
Proof. destruct ev; simpl; naive_solver. Qed.

Lemma run_one_inv ro verbose o cls stats s r s' :
  run_one ro verbose o cls stats s = (r, s') →
  ∃ evs, trace s' = trace s ++ evs ∧
    Forall (profiler_event [o] ro) evs ∧
    ∀ stats', r = Ok stats' →
      ∃ l, stats' = od_setitem stats o l ∧ EvDone o l ∈ evs.
Proof.
  unfold run_one, bind, emit, foreign, ret; simpl.
  destruct (cls ro (heap s)) as [[p|e] h1]; simpl.
  2:{ intros [= <- <-]. eexists; split; [done|]. split; [|done].
      repeat constructor. }
  destruct (prof_run p h1) as [[l|e] h2] eqn:Hrun;
    destruct verbose; simpl; rewrite Hrun; simpl; intros [= <- <-]; simpl;
    rewrite <- ?(assoc_L (++)); (eexists; split; [done|]);
    (split; [repeat constructor; set_solver|]); try done.
  all: intros ? [= <-]; exists l; split; [done|]; set_solver.
Qed.

Lemma run_present_app ro verbose l1 l2 stats s :
  run_present ro verbose (l1 ++ l2) stats s =
    match run_present ro verbose l1 stats s with
    | (Ok stats1, s1) => run_present ro verbose l2 stats1 s1
    | (Err e, s1) => (Err e, s1)
    end.
Proof.
  revert stats s. induction l1 as [|[o cls] l1 IH]; intros stats s; [done|].
  simpl. unfold bind.
  destruct (run_one ro verbose o cls stats s) as [[stats1|e] s1]; [|done].
  apply IH.
Qed.

Lemma run_present_inv ro verbose l stats s r s' :
  run_present ro verbose l stats s = (r, s') →
  ∃ evs, trace s' = trace s ++ evs ∧
    Forall (profiler_event l.*1 ro) evs ∧
    ∀ stats', r = Ok stats' →
      (NoDup (stats.*1 ++ l.*1) → stats'.*1 = stats.*1 ++ l.*1) ∧
      ∀ o, o ∈ l.*1 → ∃ rec, EvDone o rec ∈ evs.
Proof.
  revert stats s. induction l as [|[o cls] l IH]; intros stats s; simpl.
  - intros [= <- <-]. exists []. rewrite !app_nil_r. split; [done|].
    split; [done|]. intros ? [= <-]. split; [done|].
    by intros o ?%elem_of_nil.
  - unfold bind.
    destruct (run_one ro verbose o cls stats s) as [[stats1|e] s1] eqn:Hone.
    + apply run_one_inv in Hone as (evs1 & Htr1 & Hev1 & Hok1).
      destruct (Hok1 _ eq_refl) as (rec & -> & Hdone).
      intros Hrest. apply IH in Hrest as (evs2 & Htr2 & Hev2 & Hok2).
      exists (evs1 ++ evs2). rewrite Htr2, Htr1, (assoc_L (++)).
      split; [done|]. split.
      { apply Forall_app. split.
        - eapply Forall_impl; [exact Hev1|].
          intros ev. apply profiler_event_mono. set_solver.
        - eapply Forall_impl; [exact Hev2|].
          intros ev. apply profiler_event_mono. set_solver. }
      intros stats' ->. destruct (Hok2 _ eq_refl) as [Hkeys Hall]. split.
      * intros Hnd. assert (o ∉ stats.*1) as Hfresh.
        { apply NoDup_app in Hnd as (_ & Hdisj & _).
          intros Hin. apply (Hdisj _ Hin). by left. }
        rewrite od_setitem_fresh in Hkeys by done.
        rewrite fmap_app in Hkeys. simpl in Hkeys.
        rewrite <- (assoc_L (++)) in Hkeys. by apply Hkeys.
      * intros o' [->|Hin]%elem_of_cons.
        -- exists rec. apply elem_of_app. by left.
        -- destruct (Hall _ Hin) as [rec' ?]. exists rec'.
           apply elem_of_app. by right.
    + apply run_one_inv in Hone as (evs1 & Htr1 & Hev1 & _).
      intros [= <- <-]. exists evs1. split; [done|]. split; [|done].
      eapply Forall_impl; [exact Hev1|].
      intros ev. apply profiler_event_mono. set_solver.
Qed.

(** *** Extracting the result *)

Lemma dict_delitem_inv l k s r s' :
  dict_delitem l k s = (r, s') →
  trace s' = trace s ∧
  match r with
  | Ok _ => ∃ d, heap s !! l = Some d ∧ is_Some (d !! k) ∧
                 heap s' = <[l := delete k d]> (heap s)
  | Err _ => s' = s
  end.
Proof.
  unfold dict_delitem. destruct (heap s !! l) as [d|] eqn:Hl.
  - destruct (d !! k) as [v|] eqn:Hk; intros [= <- <-]; simpl; eauto.
  - intros [= <- <-]. eauto.
Qed.

Lemma sanitized_delitem h l d l' :
  h !! l = Some d → sanitized h l' →
  sanitized (<[l := delete "result" d]> h) l'.
Proof.
  intros Hl (d' & Hl' & Hd'). destruct (decide (l = l')) as [->|Hne].
  - exists (delete "result" d). by rewrite lookup_insert_eq, lookup_delete_eq.
  - exists d'. by rewrite lookup_insert_ne.
Qed.

(** One pass of the loop body on the key [k]. *)
Lemma extract_step stats k rest res s r s' :
  extract_result stats (k :: rest) res s = (r, s') →
  (∃ e, r = Err e ∧ trace s' = trace s) ∨
  ∃ truth l d val,
    truthy res = Ok truth ∧
    od_lookup stats k = Some l ∧ heap s !! l = Some d ∧
    d !! "result" = Some val ∧
    extract_result stats rest (if negb truth then val else res)
      (State (<[l := delete "result" d]> (heap s)) (trace s)) = (r, s').
Proof.
  simpl. unfold bind, lift, od_getitem.
  destruct (truthy res) as [truth|e] eqn:Ht.
  2:{ intros [= <- <-]. left; eauto. }
  destruct (od_lookup stats k) as [l|] eqn:Hk.
  2:{ destruct (negb truth); unfold raise, ret;
        intros [= <- <-]; left; eauto. }
  unfold ret, dict_getitem, dict_delitem.
  destruct (heap s !! l) as [d|] eqn:Hl.
  2:{ destruct (negb truth); rewrite ?Hl; intros [= <- <-];
        left; eauto. }
  destruct (d !! "result") as [val|] eqn:Hd.
  2:{ destruct (negb truth); rewrite ?Hl, ?Hd; intros [= <- <-];
        left; eauto. }
  destruct (negb truth) eqn:Hn; repeat (rewrite ?Hl, ?Hd; simpl);
    intros Hrest; right; exists truth, l, d, val; rewrite Hn;
    by repeat split.
Qed.

Lemma extract_cons_raises stats k rest res s e :
  truthy res = Err e →
  extract_result stats (k :: rest) res s = (Err e, s).
Proof. intros Ht. simpl. unfold bind, lift. by rewrite Ht. Qed.

Lemma extract_cons_ok stats k rest res s truth l d val :
  truthy res = Ok truth →
  od_lookup stats k = Some l → heap s !! l = Some d →
  d !! "result" = Some val →
  extract_result stats (k :: rest) res s =
    extract_result stats rest (if negb truth then val else res)
      (State (<[l := delete "result" d]> (heap s)) (trace s)).
Proof.
  intros Ht Hk Hl Hd. simpl.
  unfold bind, lift, od_getitem, ret, dict_getitem, dict_delitem.
  rewrite Ht, Hk. destruct (negb truth); by repeat (rewrite ?Hl, ?Hd; simpl).
Qed.


Lemma extract_result_inv stats keys res s r s' :
  extract_result stats keys res s = (r, s') →
  trace s' = trace s ∧
  ∀ v, r = Ok v →
    (∀ l, sanitized (heap s) l → sanitized (heap s') l) ∧
    (∀ k, k ∈ keys →
       ∃ l, od_lookup stats k = Some l ∧ sanitized (heap s') l) ∧
    ∃ vals,
      Forall2 (λ k val, ∃ l d, od_lookup stats k = Some l ∧
                 heap s !! l = Some d ∧ d !! "result" = Some val) keys vals ∧
      pick_result res vals = Ok v.
Proof.
  revert res s. induction keys as [|k rest IH]; intros res s Hrun.
  - injection Hrun as <- <-. split; [done|]. intros v [= <-].
    split; [done|]. split; [by intros k ?%elem_of_nil|].
    exists []. by split.
  - apply extract_step in Hrun
      as [(e & -> & Htr)|(truth & l & d & val & Ht & Hk & Hl & Hd & Hrest)];
      [done|].
    apply IH in Hrest as [Htr Hok]. simpl in *. split; [done|].
    intros v ->. destruct (Hok _ eq_refl) as (Hmono & Hkeys & vals & Hvals & Hv).
    split; [|split].
    + intros l' Hl'. apply Hmono. by apply sanitized_delitem.
    + intros k' [->|Hin]%elem_of_cons; [|by apply Hkeys].
      exists l. split; [done|]. apply Hmono.
      exists (delete "result" d). by rewrite lookup_insert_eq, lookup_delete_eq.
    + exists (val :: vals). split; [|simpl; by rewrite Ht].
      constructor; [by eauto|].
      eapply Forall2_impl; [exact Hvals|]. simpl.
      intros k' val' (l' & d' & Hk' & Hl' & Hd').
      exists l', d'. split; [done|]. split; [|done].
      destruct (decide (l = l')) as [->|Hne].
      * rewrite lookup_insert_eq in Hl'. injection Hl' as <-.
        by rewrite lookup_delete_eq in Hd'.
      * by rewrite lookup_insert_ne in Hl'.
Qed.



Lemma run_profilers_keys ro cfg v t st t' :
  run_profilers ro cfg v t = (Ok st, t') →
  st.*1 = filter (λ o, o ∈ chars cfg) _PROFILERS.*1.
Proof.
  intros Hrun.
  apply run_profilers_inv in Hrun as [(e & [=] & _)|(_ & _ & Hrun)].
  apply run_present_inv in Hrun as (evs & _ & _ & Hok).
  destruct (Hok _ eq_refl) as [Hst _].
  rewrite Hst; [by rewrite present_codes|]. apply present_codes_NoDup.
Qed.

Lemma run_profilers_keys_NoDup ro cfg v t st t' :
  run_profilers ro cfg v t = (Ok st, t') → NoDup st.*1.
Proof.
  intros ->%run_profilers_keys. apply NoDup_filter, registry_codes_NoDup.
Qed.

(** The first truthy value wins; a falsy one is replaced by the next. *)
Lemma pick_result_truthy res vals :
  truthy res = Ok true → pick_result res vals = Ok res.
Proof.
  intros Ht. induction vals as [|v vals IH]; [done|].
  simpl. by rewrite Ht.
Qed.

Lemma pick_result_falsy res v vals :
  truthy res = Ok false →
  pick_result res (v :: vals) = pick_result v vals.
Proof. intros Hf. simpl. by rewrite Hf. Qed.

Lemma pick_result_first v vals :
  truthy v = Ok true → pick_result VNone (v :: vals) = Ok v.
Proof. intros Ht. simpl. by apply pick_result_truthy. Qed.

(** *** The stages of [run] *)

Lemma Forall2_impl_elem {A B} (P Q : A → B → Prop) l k :
  Forall2 P l k → (∀ x y, x ∈ l → P x y → Q x y) → Forall2 Q l k.
Proof.
  induction 1 as [|x y l k HP _ IH]; intros Himp; constructor.
  - apply Himp; [by left|done].
  - apply IH. intros x' y' Hin. apply Himp. by right.
Qed.

Lemma snapshot_inv h stats snap :
  snapshot h stats = Some snap →
  Forall2 (λ ol od, od.1 = ol.1 ∧ h !! ol.2 = Some od.2) stats snap.
Proof.
  intros Hsnap%mapM_Some_1. eapply Forall2_impl; [exact Hsnap|].
  intros [o l] [o' d]. simpl. destruct (h !! l); simpl; naive_solver.
Qed.

Lemma run_inv func options args kwargs host port s r s' :
  run func options args kwargs host port s = (r, s') →
  (∃ e, r = Err e ∧
     run_profilers (target func args kwargs) options false s = (Err e, s')) ∨
  ∃ stats s1,
    run_profilers (target func args kwargs) options false s = (Ok stats, s1) ∧
    ((∃ e, r = Err e ∧
        extract_result stats stats.*1 VNone s1 = (Err e, s')) ∨
     ∃ v s2,
       extract_result stats stats.*1 VNone s1 = (Ok v, s2) ∧
       ((∃ e, r = Err e ∧ s' = s2) ∨
        ∃ snap text,
          snapshot (heap s2) stats = Some snap ∧ json_dumps snap = Ok text ∧
          s' = State (heap s2)
                 (trace s2 ++ [EvSend (address host port)
                                 (gzip_compress (encode_utf8 text))]) ∧
          r = match urlopen (address host port)
                      (gzip_compress (encode_utf8 text)) with
              | Ok _ => Ok v
              | Err e => Err e
              end)).
Proof.
  intros Hrun. unfold run, bind in Hrun.
  destruct (run_profilers _ options false s) as [[stats|e] s1] eqn:Hrp.
  2:{ injection Hrun as <- <-. left. eauto. }
  right. exists stats, s1. split; [done|].
  destruct (extract_result stats stats.*1 VNone s1) as [[v|e] s2] eqn:Hex.
  2:{ injection Hrun as <- <-. left. eauto. }
  right. exists v, s2. split; [done|].
  unfold dumps_stats, send, bind, emit, ret in Hrun.
  destruct (snapshot (heap s2) stats) as [snap|] eqn:Hsnap.
  2:{ injection Hrun as <- <-. left. eauto. }
  destruct (json_dumps snap) as [text|e] eqn:Hjs.
  2:{ injection Hrun as <- <-. left. eauto. }
  simpl in Hrun. right. exists snap, text.
  split; [done|]. split; [done|].
  destruct (urlopen _ _); by injection Hrun as <- <-.
Qed.

(** A call of [run] either stops with an error before anything is sent,
    or runs every requested profiler, strips the records and sends. *)
Lemma run_cases func options args kwargs host port s r s' :
  run func options args kwargs host port s = (r, s') →
  ∃ evs,
    Forall (profiler_event (present_profilers (chars options)).*1
              (target func args kwargs)) evs ∧
    ((trace s' = trace s ++ evs ∧ ∃ e, r = Err e) ∨
     ∃ stats s1 v s2 snap text,
       run_profilers (target func args kwargs) options false s
         = (Ok stats, s1) ∧
       trace s1 = trace s ++ evs ∧
       Forall (λ o, o ∈ _PROFILERS.*1) (chars options) ∧
       (∀ o, o ∈ (present_profilers (chars options)).*1 → ∃ rec, EvDone o rec ∈ evs) ∧
       extract_result stats stats.*1 VNone s1 = (Ok v, s2) ∧
       snapshot (heap s2) stats = Some snap ∧ json_dumps snap = Ok text ∧
       s' = State (heap s2)
              (trace s ++ evs ++
                 [EvSend (address host port)
                    (gzip_compress (encode_utf8 text))]) ∧
       r = match urlopen (address host port)
                   (gzip_compress (encode_utf8 text)) with
           | Ok _ => Ok v
           | Err e => Err e
           end).
Proof.
  intros Hrun. apply run_inv in Hrun
    as [(e & -> & Hrp)|(stats & s1 & Hrp & Hrest)].
  - apply run_profilers_inv in Hrp as [(e' & _ & -> & _)|(_ & _ & Hrp)].
    + exists []. split; [done|]. left. rewrite app_nil_r. eauto.
    + apply run_present_inv in Hrp as (evs & Htr & Hev & _).
      exists evs. split; [done|]. left. eauto.
  - pose proof Hrp as Hrp'.
    apply run_profilers_inv in Hrp' as [(e' & [=] & _)|(_ & Hall & Hrp')].
    apply run_present_inv in Hrp' as (evs & Htr & Hev & Hok).
    destruct (Hok _ eq_refl) as [_ Hdone].
    exists evs. split; [done|].
    destruct Hrest as [(e & -> & Hex)|(v & s2 & Hex & Hrest)].
    { apply extract_result_inv in Hex as [Htr2 _].
      left. rewrite Htr2. eauto. }
    pose proof Hex as Hex'. apply extract_result_inv in Hex' as [Htr2 _].
    destruct Hrest as [(e & -> & ->)|(snap & text & Hsnap & Hjs & -> & ->)].
    { left. rewrite Htr2. eauto. }
    right. exists stats, s1, v, s2, snap, text.
    rewrite Htr2, Htr, <- (assoc_L (++)). by repeat split.
Qed.

Lemma profiler_events_no_send codes ro evs url data :
  Forall (profiler_event codes ro) evs → EvSend url data ∉ evs.
Proof. intros Hev Hin. rewrite Forall_forall in Hev. by apply Hev in Hin. Qed.

Lemma elem_of_present o config :
  o ∈ (present_profilers config).*1 ↔ o ∈ config ∧ o ∈ _PROFILERS.*1.
Proof. by rewrite present_codes, list_elem_of_filter. Qed.

Lemma run_one_fail ro o cls stats s e h2 :
  (cls ro (heap s) = (Err e, h2) ∨
   ∃ p h1, cls ro (heap s) = (Ok p, h1) ∧ prof_run p h1 = (Err e, h2)) →
  ∃ s2, run_one ro false o cls stats s = (Err e, s2) ∧ heap s2 = h2.
Proof.
  unfold run_one, bind, emit, foreign, ret. simpl.
  intros [Hc|(p & h1 & Hc & Hr)]; rewrite Hc; simpl; [eauto|].
  rewrite Hr. simpl. eauto.
Qed.

(** *** Properties of [run_profilers] *)

(** C4. A configuration string in which some code occurs twice is rejected
    with [AmbiguousConfigurationError], whose message quotes the
    configuration string; the state is left as it was. *)
Theorem duplicate_code_rejected run_object prof_config verbose s :
  (∃ i j c, i ≠ j ∧ chars prof_config !! i = Some c ∧
            chars prof_config !! j = Some c) →
  run_profilers run_object prof_config verbose s =
    (Err (AmbiguousConfigurationError
            ("Profiler configuration " +:+ prof_config +:+ " is ambiguous")),
     s).
Proof.
  intros (i & j & c & Hij & Hi & Hj).
  assert (¬ NoDup (chars prof_config)) as Hnd.
  { intros Hnd. apply Hij. by eapply NoDup_alt. }
  unfold run_profilers.
  destruct (_ <? _)%nat eqn:Hdup; [done|].
  apply size_list_to_set_lt in Hnd. congruence.
Qed.

(** C5. A configuration string without repetition that holds a code
    outside the registry is rejected with [BadOptionError]; the message
    names the first such code of the string. *)
Theorem unknown_option_rejected run_object prof_config verbose s :
  NoDup (chars prof_config) →
  (∃ c, c ∈ chars prof_config ∧ c ∉ _PROFILERS.*1) →
  ∃ pre option post,
    chars prof_config = pre ++ option :: post ∧
    Forall (λ o, o ∈ _PROFILERS.*1) pre ∧ (option ∉ _PROFILERS.*1) ∧
    run_profilers run_object prof_config verbose s =
      (Err (BadOptionError ("Unknown option: " +:+ option)), s).
Proof.
  intros Hnd Hbad.
  apply (first_failing (λ o, o ∈ _PROFILERS.*1)) in Hbad
    as (pre & o & post & Hcfg & Hpre & Ho).
  exists pre, o, post. repeat split; [done..|].
  unfold run_profilers. destruct (_ <? _)%nat eqn:Hdup.
  { by apply size_list_to_set_lt in Hdup. }
  unfold bind. rewrite Hcfg, check_options_bad; [done| |].
  - eapply Forall_impl; [exact Hpre|]. intros c. apply elem_of_available.
  - by rewrite elem_of_available.
Qed.

(** C1. The keys of the stats returned by [run_profilers] are the codes of
    the registry, in the registry's order, that occur in the configuration
    string; two configurations with the same codes in another order give
    the same keys in the same order. *)
Theorem stats_keys_registry_order run_object prof_config verbose s stats s' :
  run_profilers run_object prof_config verbose s = (Ok stats, s') →
  stats.*1 = filter (λ o, o ∈ chars prof_config) _PROFILERS.*1 ∧
  ∀ run_object' prof_config' verbose' t stats' t',
    chars prof_config' ≡ₚ chars prof_config →
    run_profilers run_object' prof_config' verbose' t = (Ok stats', t') →
    stats'.*1 = stats.*1.
Proof.
  intros Hrun. split; [by eapply run_profilers_keys|].
  intros ro' cfg' v' t st' t' Hperm Hrun'.
  rewrite (run_profilers_keys _ _ _ _ _ _ Hrun),
    (run_profilers_keys _ _ _ _ _ _ Hrun').
  apply list_filter_iff. intros o. by rewrite Hperm.
Qed.

(** *** Properties of [run] *)

Lemma stats_lookup (stats : list (string * loc)) o l :
  NoDup stats.*1 → (o, l) ∈ stats → od_lookup stats o = Some l.
Proof. intros Hnd Hin. by apply od_lookup_Some. Qed.

(** C3, as the code has it. Whatever [run] sends is the serialization of the
    stats after the ["result"] key was deleted from every record: no record
    handed to [json.dumps] has it. Each record had one before, and the value
    picked from them is what [run] returns when the request goes through;
    when [urlopen] raises, [run] raises that error and the value is lost. *)
Theorem result_stripped_before_send func options args kwargs host port
    s r s' :
  run func options args kwargs host port s = (r, s') →
  ∃ evs, trace s' = trace s ++ evs ∧
    ∀ url data, EvSend url data ∈ evs →
      ∃ stats s1 snap text vals v,
        run_profilers (target func args kwargs) options false s
          = (Ok stats, s1) ∧
        Forall2 (λ ol od, od.1 = ol.1 ∧ heap s' !! ol.2 = Some od.2 ∧
                          od.2 !! "result" = None) stats snap ∧
        json_dumps snap = Ok text ∧
        data = gzip_compress (encode_utf8 text) ∧
        Forall2 (λ ol val, ∃ d, heap s1 !! ol.2 = Some d ∧
                                d !! "result" = Some val) stats vals ∧
        pick_result VNone vals = Ok v ∧
        r = match urlopen url data with
            | Ok _ => Ok v
            | Err e => Err e
            end.
Proof.
  intros Hrun. apply run_cases in Hrun as (evs & Hev & Hcases).
  destruct Hcases as [[Htr _]|
    (stats & s1 & v & s2 & snap & text & Hrp & Htr & _ & _ & Hex & Hsnap
       & Hjs & -> & ->)].
  { exists evs. split; [done|]. intros url data Hin.
    by apply (profiler_events_no_send _ _ _ _ _ Hev) in Hin. }
  eexists. split; [done|]. intros url data Hin.
  apply elem_of_app in Hin as [Hin|Hin].
  { by apply (profiler_events_no_send _ _ _ _ _ Hev) in Hin. }
  apply list_elem_of_singleton in Hin as [= -> ->].
  pose proof (run_profilers_keys_NoDup _ _ _ _ _ _ Hrp) as Hnd.
  apply extract_result_inv in Hex as [_ Hok].
  destruct (Hok _ eq_refl) as (_ & Hkeys & vals & Hvals & Hv).
  exists stats, s1, snap, text, vals, v.
  split; [done|]. split; [|split]; [|done|].
  - eapply Forall2_impl_elem; [exact (snapshot_inv _ _ _ Hsnap)|].
    simpl. intros [o l] [o' d] Hin [-> Hd]. simpl in *.
    split; [done|]. split; [done|].
    destruct (Hkeys o) as (l' & Hl' & d' & Hd' & Hres).
    { apply list_elem_of_fmap. by exists (o, l). }
    rewrite (stats_lookup _ _ _ Hnd Hin) in Hl'. injection Hl' as <-.
    congruence.
  - split; [done|]. split; [|done].
    apply Forall2_fmap_l in Hvals.
    eapply Forall2_impl_elem; [exact Hvals|].
    simpl. intros [o l] val Hin (l' & d & Hl' & Hd & Hres). simpl in *.
    rewrite (stats_lookup _ _ _ Hnd Hin) in Hl'. injection Hl' as <-.
    eauto.
Qed.



(** C7. A configuration that fails validation, by a repeated or an unknown
    code, makes [run_profilers] and [run] raise in the state they were
    called in: no profiler was constructed or run, nothing was sent. *)
Theorem validation_failure_has_no_effect run_object verbose func
    prof_config args kwargs host port s :
  (¬ NoDup (chars prof_config) ∨
   ∃ c, c ∈ chars prof_config ∧ c ∉ _PROFILERS.*1) →
  ∃ e, validation_error e ∧
    run_profilers run_object prof_config verbose s = (Err e, s) ∧
    run func prof_config args kwargs host port s = (Err e, s).
Proof.
  intros Hbad.
  assert (∃ e, validation_error e ∧
            ∀ ro v, run_profilers ro prof_config v s = (Err e, s)) as
    (e & He & Hrp).
  { unfold run_profilers. destruct (_ <? _)%nat eqn:Hdup.
    { eexists. split; [|by intros]. done. }
    destruct Hbad as [Hnd|(c & Hc & Hout)].
    { apply size_list_to_set_lt in Hnd. congruence. }
    unfold bind.
    destruct (check_options _ _ s) as [[[]|e] s1] eqn:Hchk;
      apply check_options_inv in Hchk as [-> Hchk].
    - rewrite Forall_forall in Hchk. apply Hchk, elem_of_available in Hc.
      done.
    - destruct Hchk as (_ & o & _ & _ & _ & _ & ->).
      eexists. split; [|by intros]. done. }
  exists e. split; [done|]. split; [done|].
  unfold run, bind. by rewrite Hrp.
Qed.

(** C8, as the code has it. A call of [run] without [kwargs] hands every
    profiler the dict object made when [run] was defined, and without
    [args] the empty tuple: the default dict is the same object in every
    call, not a new one. *)
Theorem omitted_kwargs_share_default func options args host port s r s' :
  run func options args None host port s = (r, s') →
  ∃ evs, trace s' = trace s ++ evs ∧
    ∀ o run_object, EvConstruct o run_object ∈ evs →
      run_object = RunCall func (default [] args) kwargs_default.
Proof.
  intros Hrun. apply run_cases in Hrun as (evs & Hev & Hcases).
  rewrite Forall_forall in Hev.
  destruct Hcases as [[Htr _]|
    (stats & s1 & v & s2 & snap & text & _ & _ & _ & _ & _ & _ & _ & -> & _)].
  - exists evs. split; [done|]. intros o ro Hin. by apply Hev in Hin as [_ ->].
  - eexists. split; [done|]. intros o ro [Hin|Hin]%elem_of_app.
    + by apply Hev in Hin as [_ ->].
    + by apply list_elem_of_singleton in Hin.
Qed.

(** What a failing profiler does to [run_profilers]. *)
Lemma run_profilers_fail ro options pre o cls post stats1 s1 e h2 s :
  NoDup (chars options) →
  Forall (λ o, o ∈ _PROFILERS.*1) (chars options) →
  present_profilers (chars options) = pre ++ (o, cls) :: post →
  run_present ro false pre [] s = (Ok stats1, s1) →
  (cls ro (heap s1) = (Err e, h2) ∨
   ∃ p h1, cls ro (heap s1) = (Ok p, h1) ∧ prof_run p h1 = (Err e, h2)) →
  ∃ s2 evs,
    run_profilers ro options false s = (Err e, s2) ∧ heap s2 = h2 ∧
    trace s2 = trace s ++ evs ∧
    Forall (profiler_event (pre.*1 ++ [o]) ro) evs ∧
    ∀ o', o' ∈ post.*1 → o' ∉ pre.*1 ++ [o].
Proof.
  intros Hnd Hall Hsplit Hpre Hfail.
  destruct (run_one_fail ro o cls stats1 s1 e h2 Hfail) as (s2 & Hone & Hh).
  pose proof Hpre as (evs1 & Htr1 & Hev1 & _)%run_present_inv.
  pose proof Hone as (evs2 & Htr2 & Hev2 & _)%run_one_inv.
  exists s2, (evs1 ++ evs2). split; [|split; [done|split; [|split]]].
  - rewrite run_profilers_valid by done.
    rewrite Hsplit, run_present_app, Hpre. simpl. unfold bind.
    by rewrite Hone.
  - by rewrite Htr2, Htr1, (assoc_L (++)).
  - apply Forall_app. split.
    + eapply Forall_impl; [exact Hev1|].
      intros ev. apply profiler_event_mono. set_solver.
    + eapply Forall_impl; [exact Hev2|].
      intros ev. apply profiler_event_mono. set_solver.
  - pose proof (present_codes_NoDup (chars options)) as Hnd'.
    rewrite Hsplit, fmap_app, fmap_cons in Hnd'. simpl in Hnd'.
    apply NoDup_app in Hnd' as (_ & Hdisj & [Ho _]%NoDup_cons).
    intros o' Hin [Hin'|Heq]%elem_of_app.
    + apply (Hdisj _ Hin'). by right.
    + apply list_elem_of_singleton in Heq as ->. done.
Qed.

(** C6. In a call of [run], a send comes after every requested profiler
    is done; and when a profiler's constructor or [run()] raises after the
    profilers before it have completed, [run_profilers] and [run] raise
    that same error at once: the profilers after it leave no event and
    nothing is sent. *)
Theorem all_or_nothing func options args kwargs host port s r s' :
  run func options args kwargs host port s = (r, s') →
  ∃ evs, trace s' = trace s ++ evs ∧
    (∀ i url data, evs !! i = Some (EvSend url data) →
       ∀ o, o ∈ chars options →
         ∃ j rec, (j < i)%nat ∧ evs !! j = Some (EvDone o rec)) ∧
    (∀ pre o cls post stats1 s1 e h2,
       NoDup (chars options) →
       Forall (λ o, o ∈ _PROFILERS.*1) (chars options) →
       present_profilers (chars options) = pre ++ (o, cls) :: post →
       run_present (target func args kwargs) false pre [] s
         = (Ok stats1, s1) →
       (cls (target func args kwargs) (heap s1) = (Err e, h2) ∨
        ∃ p h1, cls (target func args kwargs) (heap s1) = (Ok p, h1) ∧
                prof_run p h1 = (Err e, h2)) →
       r = Err e ∧ heap s' = h2 ∧
       run_profilers (target func args kwargs) options false s
         = (Err e, s') ∧
       Forall (λ ev, is_send ev = false) evs ∧
       ∀ o', o' ∈ post.*1 → Forall (λ ev, event_option ev ≠ Some o') evs).
Proof.
  intros Hrun. pose proof Hrun as (evs & Hev & Hcases)%run_cases.
  destruct Hcases as [[Htr _]|
    (stats & s1 & v & s2 & snap & text & Hrp & Htr & Hall & Hdone & _ & _
       & _ & -> & _)].
  - exists evs. split; [done|]. split.
    { intros i url data Hi. apply list_elem_of_lookup_2 in Hi.
      by apply (profiler_events_no_send _ _ _ _ _ Hev) in Hi. }
    intros pre o cls post stats1 s1 e h2 Hnd Hall Hsplit Hpre Hfail.
    destruct (run_profilers_fail _ _ _ _ _ _ _ _ _ _ _ Hnd Hall Hsplit
                Hpre Hfail) as (s2 & evs' & Hrp & Hh & Htr' & Hev' & Hpost).
    unfold run, bind in Hrun. rewrite Hrp in Hrun. injection Hrun as <- <-.
    rewrite Htr' in Htr. apply app_inv_head in Htr as <-.
    split; [done|]. split; [done|]. split; [done|]. split.
    + eapply Forall_impl; [exact Hev'|].
      intros ev. apply profiler_event_not_send.
    + intros o' Hin. eapply Forall_impl; [exact Hev'|].
      intros ev Hpe Hopt. apply (Hpost _ Hin).
      by eapply profiler_event_option.
  - eexists. split; [done|]. split.
    + intros i url data Hi o Ho.
      destruct (Hdone o) as (rec & Hrec).
      { apply elem_of_present. split; [done|].
        rewrite Forall_forall in Hall. by apply Hall. }
      apply list_elem_of_lookup_1 in Hrec as (j & Hj).
      exists j, rec. split; [|by apply lookup_app_l_Some].
      apply lookup_lt_Some in Hj.
      destruct (decide (i < length evs)%nat) as [Hlt|]; [|lia].
      rewrite lookup_app_l in Hi by done.
      apply list_elem_of_lookup_2 in Hi.
      by apply (profiler_events_no_send _ _ _ _ _ Hev) in Hi.
    + intros pre o cls post stats1 s1' e h2 Hnd _ Hsplit Hpre Hfail.
      destruct (run_profilers_fail _ _ _ _ _ _ _ _ _ _ _ Hnd Hall Hsplit
                  Hpre Hfail) as (s2' & evs' & Hrp' & _).
      congruence.
Qed.

End RunnerFacts.

(** ** More on [run_profilers] and [run] *)

Section RunnerMore.

Context `{!Profilers, !Library}.

Local Abbreviation chars := code_points.
Local Abbreviation target func args kwargs :=
  (RunCall func (default [] args) (default kwargs_default kwargs)).
Local Abbreviation address host port :=
  ("http://" +:+ default "localhost" host +:+ ":" +:+
     pretty (default 8000 port)).

(** *** One profiler *)

Lemma run_one_ok_inv ro verbose o cls stats s stats' s' :
  run_one ro verbose o cls stats s = (Ok stats', s') →
  ∃ p h1 l,
    cls ro (heap s) = (Ok p, h1) ∧ prof_run p h1 = (Ok l, heap s') ∧
    stats' = od_setitem stats o l ∧
    trace s' = trace s ++ profiler_log ro verbose (o, l, class_name p).
Proof.
  unfold run_one, bind, emit, foreign, ret, profiler_log; simpl.
  destruct (cls ro (heap s)) as [[p|e] h1]; simpl; [|done].
  destruct (prof_run p h1) as [[l|e] h2] eqn:Hrun;
    destruct verbose; simpl; rewrite Hrun; simpl; intros [= <- <-]; simpl.
  all: exists p, h1, l; rewrite <- ?(assoc_L (++)); by repeat split.
Qed.

Lemma run_one_err_inv ro verbose o cls stats s e s' :
  run_one ro verbose o cls stats s = (Err e, s') →
  (cls ro (heap s) = (Err e, heap s') ∨
   ∃ p h1, cls ro (heap s) = (Ok p, h1) ∧ prof_run p h1 = (Err e, heap s')) ∧
  ∃ evs, trace s' = trace s ++ EvConstruct o ro :: evs ∧
    Forall (λ ev, ev = EvRun o ∨ verbose = true ∧ ∃ line, ev = EvPrint line)
      evs.
Proof.
  unfold run_one, bind, emit, foreign, ret; simpl.
  destruct (cls ro (heap s)) as [[p|e'] h1]; simpl.
  2:{ intros [= <- <-]. split; [by left|]. exists []. by split. }
  destruct (prof_run p h1) as [[l|e'] h2] eqn:Hrun;
    destruct verbose; simpl; rewrite Hrun; simpl; intros [= <- <-]; simpl.
  all: split; [right; by exists p, h1|].
  all: rewrite <- ?(assoc_L (++)); simpl; eexists; split; [done|].
  all: repeat (apply Forall_cons; split); try apply Forall_nil.
  all: first [exact I | by left | right; split; [done|]; by eexists].
Qed.

(** *** The present profilers, one after the other *)

Lemma runner_event_mono codes codes' ro verbose ev :
  codes ⊆ codes' →
  runner_event codes ro verbose ev → runner_event codes' ro verbose ev.
Proof. intros Hsub. destruct ev; simpl; naive_solver. Qed.

Lemma profiler_log_events ro verbose o l name :
  Forall (runner_event [o] ro verbose) (profiler_log ro verbose (o, l, name)).
Proof.
  unfold profiler_log. simpl. destruct verbose; simpl;
    repeat (apply Forall_cons; split); try apply Forall_nil;
    simpl; try done; set_solver.
Qed.

Lemma entries_log_events ro verbose (entries : list (string * loc * string)) :
  Forall (runner_event entries.*1.*1 ro verbose)
    (concat (profiler_log ro verbose <$> entries)).
Proof.
  induction entries as [|[[o rec] name] entries IH]; [constructor|].
  change (concat (profiler_log ro verbose <$> (o, rec, name) :: entries))
    with (profiler_log ro verbose (o, rec, name) ++
          concat (profiler_log ro verbose <$> entries)).
  apply Forall_app. split.
  - eapply Forall_impl; [apply profiler_log_events|].
    intros ev. apply runner_event_mono. set_solver.
  - eapply Forall_impl; [exact IH|].
    intros ev. apply runner_event_mono. set_solver.
Qed.

Lemma run_present_ok_inv ro verbose l stats s stats' s' :
  run_present ro verbose l stats s = (Ok stats', s') →
  NoDup (stats.*1 ++ l.*1) →
  ∃ entries : list (string * loc * string),
    entries.*1.*1 = l.*1 ∧ stats' = stats ++ entries.*1 ∧
    trace s' = trace s ++ concat (profiler_log ro verbose <$> entries).
Proof.
  revert stats s. induction l as [|[o cls] l IH]; intros stats s; simpl.
  - intros [= <- <-] _. exists []. simpl. by rewrite !app_nil_r.
  - unfold bind.
    destruct (run_one ro verbose o cls stats s) as [[stats1|e] s1] eqn:Hone;
      [|done].
    apply run_one_ok_inv in Hone as (p & h1 & rec & _ & _ & -> & Htr1).
    intros Hrest Hnd.
    assert (o ∉ stats.*1) as Hfresh.
    { apply NoDup_app in Hnd as (_ & Hdisj & _).
      intros Hin. apply (Hdisj _ Hin). by left. }
    rewrite od_setitem_fresh in Hrest by done.
    apply IH in Hrest as (entries & Hcodes & -> & Htr).
    2:{ rewrite fmap_app. simpl. by rewrite <- (assoc_L (++)). }
    exists ((o, rec, class_name p) :: entries). simpl. split; [by f_equal|].
    split; [by rewrite <- app_assoc|].
    rewrite Htr, Htr1, <- app_assoc. unfold profiler_log.
    by destruct verbose.
Qed.

(** The first profiler that raises. *)
Lemma run_present_err_inv ro verbose l stats s e s' :
  run_present ro verbose l stats s = (Err e, s') →
  ∃ pre o cls post stats1 s1,
    l = pre ++ (o, cls) :: post ∧
    run_present ro verbose pre stats s = (Ok stats1, s1) ∧
    run_one ro verbose o cls stats1 s1 = (Err e, s').
Proof.
  revert stats s. induction l as [|[o cls] l IH]; intros stats s; simpl; [done|].
  unfold bind.
  destruct (run_one ro verbose o cls stats s) as [[stats1|e'] s1] eqn:Hone.
  - intros Hrest. apply IH in Hrest
      as (pre & o' & cls' & post & stats2 & s2 & -> & Hpre & Hfail).
    exists ((o, cls) :: pre), o', cls', post, stats2, s2.
    split; [done|]. split; [|done]. simpl. unfold bind. by rewrite Hone.
  - intros [= <- <-]. by exists [], o, cls, l, stats, s.
Qed.

Lemma run_present_log ro verbose l stats s :
  NoDup (stats.*1 ++ l.*1) →
  ∃ evs, trace (run_present ro verbose l stats s).2 = trace s ++ evs ∧
         Forall (runner_event l.*1 ro verbose) evs.
Proof.
  intros Hnd.
  destruct (run_present ro verbose l stats s) as [[stats'|e] s'] eqn:Hrun.
  - apply run_present_ok_inv in Hrun as (entries & Hcodes & _ & Htr); [|done].
    eexists. split; [exact Htr|]. rewrite <- Hcodes.
    apply entries_log_events.
  - apply run_present_err_inv in Hrun
      as (pre & o & cls & post & stats1 & s1 & -> & Hpre & Hfail).
    rewrite fmap_app, fmap_cons in Hnd. simpl in Hnd.
    apply run_present_ok_inv in Hpre as (entries & Hcodes & _ & Htr).
    2:{ rewrite (assoc_L (++)) in Hnd. by apply NoDup_app in Hnd as [? _]. }
    apply run_one_err_inv in Hfail as (_ & evs & Htr' & Hevs).
    simpl. eexists. split.
    { rewrite Htr', Htr, <- (assoc_L (++)). done. }
    rewrite fmap_app, fmap_cons, <- Hcodes. simpl. apply Forall_app. split.
    + eapply Forall_impl; [apply entries_log_events|].
      intros ev. apply runner_event_mono. set_solver.
    + apply Forall_cons. split; [simpl; set_solver|].
      eapply Forall_impl; [exact Hevs|].
      intros ev [->|[-> [line ->]]]; simpl; [set_solver|done].
Qed.

(** *** [run_profilers]: what it logs, how it fails *)

Lemma run_present_ran ro verbose l stats s stats' s' :
  run_present ro verbose l stats s = (Ok stats', s') →
  NoDup (stats.*1 ++ l.*1) →
  ∃ entries : list (string * loc * string),
    ran_in_turn ro (heap s) l entries (heap s') ∧
    stats' = stats ++ entries.*1 ∧
    trace s' = trace s ++ concat (profiler_log ro verbose <$> entries).
Proof.
  revert stats s. induction l as [|[o cls] l IH]; intros stats s; simpl.
  - intros [= <- <-] _. exists []. simpl. rewrite !app_nil_r.
    split; [constructor|done].
  - unfold bind.
    destruct (run_one ro verbose o cls stats s) as [[stats1|e] s1] eqn:Hone;
      [|done].
    apply run_one_ok_inv in Hone as (p & h1 & rec & Hcls & Hrec & -> & Htr1).
    intros Hrest Hnd.
    assert (o ∉ stats.*1) as Hfresh.
    { apply NoDup_app in Hnd as (_ & Hdisj & _).
      intros Hin. apply (Hdisj _ Hin). by left. }
    rewrite od_setitem_fresh in Hrest by done.
    apply IH in Hrest as (entries & Hran & -> & Htr).
    2:{ rewrite fmap_app. simpl. by rewrite <- (assoc_L (++)). }
    exists ((o, rec, class_name p) :: entries). simpl.
    split; [by econstructor|].
    split; [by rewrite <- app_assoc|].
    rewrite Htr, Htr1, <- app_assoc. unfold profiler_log.
    by destruct verbose.
Qed.

(** X1. A call of [run_profilers] that returns has constructed and run the
    requested profilers strictly one after the other, in registry order,
    each on the heap the one before left. The stats hold, per code, the
    record that profiler's [run()] returned, and the log holds per profiler,
    in a row, the construction on the given [run_object], when [verbose] the
    line that names the class of the object its constructor returned, the
    call of [run()] and its return with that record. Nothing else is
    logged. *)
Theorem run_profilers_log_sequential run_object prof_config verbose s
    stats s' :
  run_profilers run_object prof_config verbose s = (Ok stats, s') →
  ∃ entries : list (string * loc * string),
    ran_in_turn run_object (heap s) (present_profilers (chars prof_config))
      entries (heap s') ∧
    entries.*1 = stats ∧
    trace s' = trace s ++ concat (profiler_log run_object verbose <$> entries).
Proof.
  intros Hrun.
  apply run_profilers_inv in Hrun as [(e & [=] & _)|(_ & _ & Hrun)].
  apply run_present_ran in Hrun as (entries & Hran & -> & Htr).
  - by exists entries.
  - apply present_codes_NoDup.
Qed.

Lemma run_profilers_events run_object prof_config verbose s r s' :
  run_profilers run_object prof_config verbose s = (r, s') →
  ∃ evs,
    trace s' = trace s ++ evs ∧
    Forall (runner_event
              (filter (λ o, o ∈ chars prof_config) _PROFILERS.*1)
              run_object verbose) evs.
Proof.
  intros Hrun.
  apply run_profilers_inv in Hrun as [(e & _ & -> & _)|(_ & _ & Hrun)].
  - exists []. by rewrite app_nil_r.
  - destruct (run_present_log run_object verbose
                (present_profilers (chars prof_config)) [] s)
      as (evs & Htr & Hev); [apply present_codes_NoDup|].
    rewrite Hrun in Htr. rewrite present_codes in Hev. by exists evs.
Qed.

(** X2. Whatever the outcome, [run_profilers] logs only events of profilers
    whose code is in the configuration and in the registry, each constructed
    on the given [run_object]; it prints only when [verbose] is set and never
    sends. *)
Theorem run_profilers_only_requested run_object prof_config verbose s :
  ∃ evs,
    trace (run_profilers run_object prof_config verbose s).2 = trace s ++ evs ∧
    Forall (runner_event
              (filter (λ o, o ∈ chars prof_config) _PROFILERS.*1)
              run_object verbose) evs.
Proof.
  destruct (run_profilers run_object prof_config verbose s) as [r s'] eqn:Hrun.
  by apply run_profilers_events in Hrun.
Qed.

(** X3. An error of [run_profilers] has one of two sources. Either the
    configuration is invalid, the error is one of the two validation errors
    and the state is untouched; or the profilers before some requested
    profiler completed and that profiler's constructor or [run()] raised
    this very error, leaving the heap as [run_profilers] returns it. *)
Theorem run_profilers_error_source run_object prof_config verbose s e s' :
  run_profilers run_object prof_config verbose s = (Err e, s') →
  (validation_error e ∧ s' = s ∧
   (¬ NoDup (chars prof_config) ∨
    ¬ Forall (λ o, o ∈ _PROFILERS.*1) (chars prof_config))) ∨
  ∃ pre o cls post stats1 s1,
    present_profilers (chars prof_config) = pre ++ (o, cls) :: post ∧
    run_present run_object verbose pre [] s = (Ok stats1, s1) ∧
    (cls run_object (heap s1) = (Err e, heap s') ∨
     ∃ p h1, cls run_object (heap s1) = (Ok p, h1) ∧
             prof_run p h1 = (Err e, heap s')).
Proof.
  intros Hrun.
  apply run_profilers_inv in Hrun
    as [(e' & [= <-] & -> & He & Hbad)|(_ & _ & Hrun)]; [by left|].
  right. apply run_present_err_inv in Hrun
    as (pre & o & cls & post & stats1 & s1 & Hsplit & Hpre & Hfail).
  apply run_one_err_inv in Hfail as [Hfail _].
  by exists pre, o, cls, post, stats1, s1.
Qed.

(** X4. For a valid configuration the order of its codes has no effect at
    all: two configurations with the same codes give the same result and
    the same final state. *)
Theorem run_profilers_order_irrelevant run_object prof_config prof_config'
    verbose s :
  NoDup (chars prof_config) →
  Forall (λ o, o ∈ _PROFILERS.*1) (chars prof_config) →
  chars prof_config' ≡ₚ chars prof_config →
  run_profilers run_object prof_config' verbose s =
    run_profilers run_object prof_config verbose s.
Proof.
  intros Hnd Hall Hperm.
  rewrite !run_profilers_valid; [|done|done|by rewrite Hperm|by rewrite Hperm].
  f_equal. unfold present_profilers. apply list_filter_iff.
  intros [o cls]. simpl. by rewrite Hperm.
Qed.

(** *** The loop of [run], a step at a time *)

(** The heap after the loop: ["result"] is gone from the records the loop
    went through, and nothing else has changed. *)
Lemma extract_result_heap stats keys res s v s' :
  extract_result stats keys res s = (Ok v, s') →
  ∀ l, heap s' !! l =
       if decide (l ∈ omap (od_lookup stats) keys)
       then delete "result" <$> heap s !! l
       else heap s !! l.
Proof.
  revert res s. induction keys as [|k rest IH]; intros res s Hrun l.
  - injection Hrun as <- <-.
    destruct (decide _) as [Hin|]; [|done]. by apply elem_of_nil in Hin.
  - apply extract_step in Hrun
      as [(e & [=] & _)|(truth & l0 & d & val & _ & Hk & Hl & Hd & Hrest)].
    rewrite (IH _ _ Hrest l).
    assert (omap (od_lookup stats) (k :: rest)
            = l0 :: omap (od_lookup stats) rest) as ->.
    { simpl. by rewrite Hk. }
    cbn [heap]. destruct (decide (l = l0)) as [->|Hne].
    + rewrite lookup_insert_eq, Hl.
      destruct (decide (l0 ∈ l0 :: omap (od_lookup stats) rest)) as [_|Hout].
      2:{ destruct Hout. by left. }
      destruct (decide (l0 ∈ omap (od_lookup stats) rest));
        simpl; by rewrite ?delete_delete_eq.
    + rewrite lookup_insert_ne by done.
      destruct (decide (l ∈ omap (od_lookup stats) rest)) as [Hin|Hout],
        (decide (l ∈ l0 :: omap (od_lookup stats) rest)) as [Hin'|Hout'];
        try done.
      * destruct Hout'. by right.
      * apply elem_of_cons in Hin' as [?|?]; done.
Qed.

(** When the records are distinct dicts that hold ["result"], the loop can
    only stop at a truth test: its result is the value picked. *)
Lemma extract_result_ok stats keys res s ls vals :
  Forall2 (λ k l, od_lookup stats k = Some l) keys ls → NoDup ls →
  Forall2 (λ l val, ∃ d, heap s !! l = Some d ∧ d !! "result" = Some val)
    ls vals →
  ∃ s', extract_result stats keys res s = (pick_result res vals, s') ∧
        ∀ v, pick_result res vals = Ok v →
             ∀ l, heap s' !! l =
                  if decide (l ∈ ls) then delete "result" <$> heap s !! l
                  else heap s !! l.
Proof.
  intros Hkeys. revert res s vals.
  induction Hkeys as [|k l keys ls Hk Hkeys IH]; intros res s vals Hnd Hvals.
  - apply Forall2_nil_inv_l in Hvals as ->. exists s. split; [done|].
    intros v _ l. destruct (decide _) as [Hin|]; [|done].
    by apply elem_of_nil in Hin.
  - apply Forall2_cons_inv_l in Hvals
      as (val & vals' & (d & Hl & Hd) & Hvals & ->).
    apply NoDup_cons in Hnd as [Hout Hnd].
    destruct (truthy res) as [truth|e] eqn:Ht.
    2:{ exists s. rewrite (extract_cons_raises _ _ _ _ _ _ Ht).
        cbn [pick_result]. by rewrite Ht. }
    rewrite (extract_cons_ok _ _ _ _ _ _ _ _ _ Ht Hk Hl Hd).
    cbn [pick_result]. rewrite Ht.
    set (s1 := State (<[l := delete "result" d]> (heap s)) (trace s)).
    destruct (IH (if negb truth then val else res) s1 vals' Hnd)
      as (s' & Hrun & Hheap).
    { eapply Forall2_impl_elem; [exact Hvals|].
      simpl. intros l' val' Hin (d' & Hl' & Hd'). exists d'. split; [|done].
      rewrite lookup_insert_ne; [done|]. by intros ->. }
    exists s'. split; [done|]. intros v Hv l'.
    rewrite (Hheap v Hv l'). simpl.
    destruct (decide (l' = l)) as [->|Hne].
    + rewrite lookup_insert_eq, Hl, (decide_False (P := l ∈ ls)) by done.
      by rewrite decide_True by (by left).
    + rewrite lookup_insert_ne by done.
      destruct (decide (l' ∈ ls)) as [Hin|Hnin].
      * by rewrite decide_True by (by right).
      * rewrite decide_False; [done|]. by intros [?|?]%elem_of_cons.
Qed.


Lemma omap_od_lookup (stats : list (string * loc)) :
  NoDup stats.*1 → omap (od_lookup stats) stats.*1 = stats.*2.
Proof.
  intros Hnd.
  assert (∀ od : list (string * loc),
            Forall (λ ol, od_lookup stats ol.1 = Some ol.2) od →
            omap (od_lookup stats) od.*1 = od.*2) as Hsub.
  { induction 1 as [|[o l] od Hol _ IH]; [done|].
    simpl in *. rewrite Hol. f_equal. exact IH. }
  apply Hsub. apply Forall_forall. intros [o l] Hin.
  by apply stats_lookup.
Qed.

(** *** [run]: the records, the payload, the value *)


Lemma snapshot_stripped h1 h2 (stats : list (string * loc)) recs :
  (∀ l, l ∈ stats.*2 → h2 !! l = delete "result" <$> h1 !! l) →
  snapshot h1 stats = Some recs →
  snapshot h2 stats = Some ((λ od, (od.1, delete "result" od.2)) <$> recs).
Proof.
  intros Hh Hsnap%snapshot_inv. apply mapM_Some_2, Forall2_fmap_r.
  eapply Forall2_impl_elem; [exact Hsnap|].
  intros [o l] [o' d] Hin [Ho Hd]. simpl in *. subst o'.
  rewrite Hh, Hd; [done|]. apply list_elem_of_fmap. by exists (o, l).
Qed.

Lemma records_results (h : gmap loc (gmap string value))
    (stats : list (string * loc)) recs :
  snapshot h stats = Some recs →
  Forall (λ od : string * gmap string value, is_Some (od.2 !! "result")) recs →
  Forall2 (λ l val, ∃ d, h !! l = Some d ∧ d !! "result" = Some val)
    stats.*2 (omap (λ od : string * gmap string value, od.2 !! "result") recs).
Proof.
  intros Hsnap%snapshot_inv.
  induction Hsnap as [|[o l] [o' d] stats recs [_ Hd] _ IH]; intros Hres.
  - constructor.
  - apply Forall_cons in Hres as [[val Hval] Hres]. simpl in *.
    rewrite Hval. constructor; [by exists d|]. by apply IH.
Qed.

Lemma stats_keys_lookup (stats : list (string * loc)) :
  NoDup stats.*1 →
  Forall2 (λ k l, od_lookup stats k = Some l) stats.*1 stats.*2.
Proof.
  intros Hnd. apply Forall2_fmap.
  apply Forall_Forall2_diag, Forall_forall. intros [o l] Hin.
  by apply stats_lookup.
Qed.

Lemma results_of_stats (h : gmap loc (gmap string value))
    (stats : list (string * loc)) vals :
  NoDup stats.*1 →
  Forall2 (λ k val, ∃ l d, od_lookup stats k = Some l ∧ h !! l = Some d ∧
                           d !! "result" = Some val) stats.*1 vals →
  Forall2 (λ ol val, ∃ d, h !! ol.2 = Some d ∧ d !! "result" = Some val)
    stats vals.
Proof.
  intros Hnd Hvals%Forall2_fmap_l.
  eapply Forall2_impl_elem; [exact Hvals|].
  simpl. intros [o l] val Hin (l' & d & Hl' & Hd & Hres). simpl in *.
  rewrite (stats_lookup _ _ _ Hnd Hin) in Hl'. injection Hl' as <-. eauto.
Qed.

(** The value the loop leaves in [result]: the first truthy one when there
    is one, else the last, else what it started with. The last value is
    assigned and never tested. *)
Lemma pick_result_spec res vals v :
  truthy res = Ok false → pick_result res vals = Ok v →
  (∃ pre post, vals = pre ++ v :: post ∧
     Forall (λ x, truthy x = Ok false) pre ∧ truthy v = Ok true) ∨
  (∃ init, vals = init ++ [v] ∧
     Forall (λ x, truthy x = Ok false) init ∧ truthy v ≠ Ok true) ∨
  (vals = [] ∧ v = res).
Proof.
  revert res. induction vals as [|w vals IH]; intros res Hf Hpick.
  - injection Hpick as <-. right. by right.
  - rewrite pick_result_falsy in Hpick by done.
    destruct (truthy w) as [[|]|e] eqn:Hw.
    + rewrite pick_result_truthy in Hpick by done. injection Hpick as <-.
      left. exists [], vals. by repeat split.
    + destruct (IH w Hw Hpick)
        as [(pre & post & -> & Hpre & Hv)|
            [(init & -> & Hinit & Hv)|[-> ->]]].
      * left. exists (w :: pre), post. repeat split; try done.
        by constructor.
      * right. left. exists (w :: init). repeat split; try done.
        by constructor.
      * right. left. exists []. repeat split; [constructor|congruence].
    + destruct vals as [|w' vals].
      * injection Hpick as <-. right. left. exists [].
        repeat split; [constructor|congruence].
      * simpl in Hpick. by rewrite Hw in Hpick.
Qed.

(** X5. The log of a call of [run], whatever its outcome: events of the
    requested profilers on the one run object [(func, args, kwargs)], no
    printed line, then at most one send, the last event, addressed to
    [http://host:port] ([localhost] and [8000] when omitted). *)
Theorem run_log func options args kwargs host port s :
  ∃ evs sends,
    trace (run func options args kwargs host port s).2
      = trace s ++ evs ++ sends ∧
    Forall (runner_event (filter (λ o, o ∈ chars options) _PROFILERS.*1)
              (target func args kwargs) false) evs ∧
    (sends = [] ∨ ∃ data, sends = [EvSend (address host port) data]).
Proof.
  destruct (run func options args kwargs host port s) as [r s'] eqn:Hrun.
  apply run_inv in Hrun as [(e & -> & Hrp)|(stats & s1 & Hrp & Hrest)];
    apply run_profilers_events in Hrp as (evs & Htr & Hev).
  { exists evs, []. rewrite app_nil_r. split; [done|]. split; [done|by left]. }
  destruct Hrest as [(e & -> & Hex)|(v & s2 & Hex & Hrest)];
    apply extract_result_inv in Hex as [Htr2 _].
  { exists evs, []. rewrite app_nil_r. simpl. rewrite Htr2.
    split; [done|]. split; [done|by left]. }
  destruct Hrest as [(e & -> & ->)|(snap & text & _ & _ & -> & _)].
  { exists evs, []. rewrite app_nil_r. simpl. rewrite Htr2.
    split; [done|]. split; [done|by left]. }
  eexists evs, [_]. simpl. rewrite Htr2, Htr, <- app_assoc.
  split; [done|]. split; [done|]. right. by eexists.
Qed.


(** X7. A call of [run] that returns has changed the heap the profilers left
    in one way only: each record of the stats has lost its ["result"] key,
    in place. Every other object, and every other key of the records, is as
    it was. *)
Theorem run_strips_in_place func options args kwargs host port s v s'
    stats s1 :
  run func options args kwargs host port s = (Ok v, s') →
  run_profilers (target func args kwargs) options false s = (Ok stats, s1) →
  ∀ l, heap s' !! l =
       if decide (l ∈ stats.*2)
       then delete "result" <$> heap s1 !! l
       else heap s1 !! l.
Proof.
  intros Hrun Hrp.
  apply run_inv in Hrun as [(e & [=] & _)|(stats' & s1' & Hrp' & Hrest)].
  rewrite Hrp in Hrp'. injection Hrp' as <- <-.
  destruct Hrest as [(e & [=] & _)|(v' & s2 & Hex & Hrest)].
  destruct Hrest as [(e & [=] & _)|(snap & text & _ & _ & -> & _)].
  pose proof (extract_result_heap _ _ _ _ _ _ Hex) as Hheap.
  rewrite omap_od_lookup in Hheap
    by (by eapply run_profilers_keys_NoDup).
  exact Hheap.
Qed.

(** X8. When the profilers have returned distinct dicts that all hold
    ["result"], the result of [run] is decided by the truth tests of the
    loop and by the library calls: the error of a truth test if one raises,
    else the error of [json.dumps] or of [urlopen] if one raises, else the
    value picked from the records' results. *)
Theorem run_outcome func options args kwargs host port s stats s1 recs :
  run_profilers (target func args kwargs) options false s = (Ok stats, s1) →
  snapshot (heap s1) stats = Some recs →
  NoDup stats.*2 →
  Forall (λ od : string * gmap string value, is_Some (od.2 !! "result")) recs →
  (run func options args kwargs host port s).1 =
    match pick_result VNone
            (omap (λ od : string * gmap string value, od.2 !! "result") recs)
    with
    | Err e => Err e
    | Ok v =>
        match json_dumps ((λ od, (od.1, delete "result" od.2)) <$> recs) with
        | Err e => Err e
        | Ok text =>
            match urlopen (address host port)
                    (gzip_compress (encode_utf8 text)) with
            | Ok _ => Ok v
            | Err e => Err e
            end
        end
    end.
Proof.
  intros Hrp Hrecs Hdistinct Hres.
  pose proof (run_profilers_keys_NoDup _ _ _ _ _ _ Hrp) as Hnd.
  destruct (extract_result_ok stats stats.*1 VNone s1 stats.*2
              (omap (λ od : string * gmap string value, od.2 !! "result") recs))
    as (s2 & Hex & Hheap); [by apply stats_keys_lookup|done|
                            by apply records_results|].
  unfold run, bind. rewrite Hrp, Hex.
  destruct (pick_result VNone _) as [v|e]; [|done].
  assert (snapshot (heap s2) stats
          = Some ((λ od, (od.1, delete "result" od.2)) <$> recs)) as Hsnap.
  { apply (snapshot_stripped (heap s1)); [|done].
    intros l Hl. by rewrite (Hheap v eq_refl), decide_True. }
  unfold dumps_stats, send, bind, emit, ret. rewrite Hsnap.
  destruct (json_dumps _) as [text|e]; [|done]. simpl.
  by destruct (urlopen _ _).
Qed.

(** X9. The value [run] returns is the ["result"] of the first record, in
    the order of the stats, whose ["result"] is truthy; when none is, it is
    the last record's (which the loop assigns without testing it), and
    [None] when no profiler was requested. *)
Theorem run_returns_first_truthy_or_last func options args kwargs host port
    s v s' :
  run func options args kwargs host port s = (Ok v, s') →
  ∃ stats s1 vals,
    run_profilers (target func args kwargs) options false s = (Ok stats, s1) ∧
    Forall2 (λ ol val, ∃ d, heap s1 !! ol.2 = Some d ∧
                            d !! "result" = Some val) stats vals ∧
    ((∃ pre post, vals = pre ++ v :: post ∧
        Forall (λ x, truthy x = Ok false) pre ∧ truthy v = Ok true) ∨
     (∃ init, vals = init ++ [v] ∧
        Forall (λ x, truthy x = Ok false) init ∧ truthy v ≠ Ok true) ∨
     (vals = [] ∧ v = VNone)).
Proof.
  intros Hrun.
  apply run_inv in Hrun as [(e & [=] & _)|(stats & s1 & Hrp & Hrest)].
  destruct Hrest as [(e & [=] & _)|(v' & s2 & Hex & Hrest)].
  assert (v' = v) as ->.
  { destruct Hrest as [(e & [=] & _)|(snap & text & _ & _ & _ & Hr)].
    destruct (urlopen _ _); congruence. }
  apply extract_result_inv in Hex as [_ Hok].
  destruct (Hok _ eq_refl) as (_ & _ & vals & Hvals & Hv).
  exists stats, s1, vals. split; [done|]. split.
  { apply results_of_stats; [|done]. by eapply run_profilers_keys_NoDup. }
  by apply pick_result_spec.
Qed.


(** X11. With the empty configuration [run_profilers] returns empty stats
    and does nothing, and [run] still sends: the serialization of the empty
    stats goes out and [None] comes back. *)
Theorem empty_configuration run_object verbose func args kwargs host port s :
  run_profilers run_object "" verbose s = (Ok [], s) ∧
  run func "" args kwargs host port s =
    match json_dumps [] with
    | Err e => (Err e, s)
    | Ok text =>
        (match urlopen (address host port)
                 (gzip_compress (encode_utf8 text)) with
         | Ok _ => Ok VNone
         | Err e => Err e
         end,
         State (heap s)
           (trace s ++ [EvSend (address host port)
                          (gzip_compress (encode_utf8 text))]))
    end.
Proof.
  assert (∀ ro v, run_profilers ro "" v s = (Ok [], s)) as Hrp.
  { intros ro v. rewrite run_profilers_valid; [done|constructor|constructor]. }
  split; [apply Hrp|].
  unfold run, bind. rewrite Hrp. simpl.
  unfold dumps_stats, send, bind, emit, ret. simpl.
  destruct (json_dumps []) as [text|e]; [|done]. simpl.
  by destruct (urlopen _ _).
Qed.

End RunnerMore.

(** ** The payload, seen from the collector *)

Section Collector.

Context `{!Profilers, !Library, !Decoder}.

Local Abbreviation target func args kwargs :=
  (RunCall func (default [] args) (default kwargs_default kwargs)).


End Collector.

(** *** The module's start *)

(** X12. The baseline is taken at most once: after an import that went
    through, [builtins.initial_rss_size] is set, and a later import leaves
    [builtins] as it is, whatever the measurement would give, failure
    included. *)
Theorem import_runner_once rss rss' builtins builtins' :
  import_runner rss builtins = Ok builtins' →
  is_Some (builtins' !! "initial_rss_size") ∧
  import_runner rss' builtins' = Ok builtins'.
Proof.
  unfold import_runner.
  destruct (builtins !! "initial_rss_size") as [size|] eqn:Hb.
  - intros [= <-]. rewrite Hb. eauto.
  - destruct rss as [size|e]; intros [= <-].
    rewrite lookup_insert_eq. eauto.
Qed.

(** ** The properties at concrete runs *)

Lemma stats_keys_registry_order_witness :
  demo_run_profilers (RunPath "script.py") "cm" true start =
    (Ok [("m", 2%positive); ("c", 3%positive)],
     State (<[3%positive := {[ "result" := VInt 5 ]}]>
              (<[2%positive := {[ "result" := VInt 0 ]}]> module_heap))
       [ EvConstruct "m" (RunPath "script.py");
         EvPrint "Running MemoryProfiler..."; EvRun "m"; EvDone "m" 2;
         EvConstruct "c" (RunPath "script.py");
         EvPrint "Running FlameGraphProfiler..."; EvRun "c"; EvDone "c" 3 ]) ∧
  [("m", 2%positive); ("c", 3%positive)].*1 = ["m"; "c"].
Proof.
  assert (demo_run_profilers (RunPath "script.py") "cm" true start =
    (Ok [("m", 2%positive); ("c", 3%positive)],
     State (<[3%positive := {[ "result" := VInt 5 ]}]>
              (<[2%positive := {[ "result" := VInt 0 ]}]> module_heap))
       [ EvConstruct "m" (RunPath "script.py");
         EvPrint "Running MemoryProfiler..."; EvRun "m"; EvDone "m" 2;
         EvConstruct "c" (RunPath "script.py");
         EvPrint "Running FlameGraphProfiler..."; EvRun "c"; EvDone "c" 3 ]))
    as Hrun by (vm_compute; reflexivity).
  split; [exact Hrun|].
  exact (proj1 (@stats_keys_registry_order demo_profilers _ _ _ _ _ _ Hrun)).
Defined.

(** The run of C2's failing input: the first record's ["result"] is 0, the
    second one's is 5, and [run] returns 5. *)
Theorem falsy_first_result_is_overwritten :
  ∃ s1,
    demo_run_profilers (RunCall "f" [] kwargs_default) "mc" false start
      = (Ok [("m", 2%positive); ("c", 3%positive)], s1) ∧
    heap s1 !! 2%positive = Some {[ "result" := VInt 0 ]} ∧
    heap s1 !! 3%positive = Some {[ "result" := VInt 5 ]} ∧
    (demo_run "f" "mc" None None None None start).1 = Ok (VInt 5).
Proof.
  eexists. split; [vm_compute; reflexivity|].
  split; [vm_compute; reflexivity|].
  split; vm_compute; reflexivity.
Qed.

(** C8 fails on the code: two calls that omit [kwargs], one after the
    other. The first finds the default dict empty and marks it; the second
    is handed the marked dict. *)
Lemma default_kwargs_mutation_leaks :
  heap start !! kwargs_default = Some ∅ ∧
  (demo_run "f" "p" None None None None start).1 = Ok (VInt 0) ∧
  heap (demo_run "f" "p" None None None None start).2 !! kwargs_default
    = Some {[ "seen" := VBool true ]} ∧
  (demo_run "f" "p" None None None None
     (demo_run "f" "p" None None None None start).2).1 = Ok (VInt 1).
Proof. repeat split; vm_compute; reflexivity. Qed.

Lemma duplicate_code_rejected_witness :
  (∃ i j c, i ≠ j ∧ code_points "mm" !! i = Some c ∧
            code_points "mm" !! j = Some c) ∧
  demo_run_profilers (RunPath "script.py") "mm" false start =
    (Err (AmbiguousConfigurationError "Profiler configuration mm is ambiguous"),
     start).
Proof.
  assert (∃ i j c, i ≠ j ∧ code_points "mm" !! i = Some c ∧
            code_points "mm" !! j = Some c) as Hdup.
  { exists 0%nat, 1%nat, "m". split; [discriminate|]. split; reflexivity. }
  split; [exact Hdup|].
  exact (@duplicate_code_rejected demo_profilers
           (RunPath "script.py") "mm" false start Hdup).
Defined.

Lemma unknown_option_rejected_witness :
  NoDup (code_points "m日本") ∧
  (∃ c, c ∈ code_points "m日本" ∧
        c ∉ (@_PROFILERS demo_profilers).*1) ∧
  ∃ pre option post,
    code_points "m日本" = pre ++ option :: post ∧
    Forall (λ o, o ∈ (@_PROFILERS demo_profilers).*1)
      pre ∧
    (option ∉ (@_PROFILERS demo_profilers).*1) ∧
    demo_run_profilers (RunPath "script.py") "m日本" false start =
      (Err (BadOptionError ("Unknown option: " +:+ option)), start).
Proof.
  assert (NoDup (code_points "m日本")) as Hnd.
  { apply (bool_decide_unpack _). vm_compute. exact I. }
  assert (∃ c, c ∈ code_points "m日本" ∧
        c ∉ (@_PROFILERS demo_profilers).*1) as Hbad.
  { exists "日". split; apply (bool_decide_unpack _); vm_compute; exact I. }
  split; [exact Hnd|]. split; [exact Hbad|].
  exact (@unknown_option_rejected demo_profilers
           (RunPath "script.py") "m日本" false start Hnd Hbad).
Defined.

Lemma validation_failure_has_no_effect_witness :
  (¬ NoDup (code_points "x") ∨
   ∃ c, c ∈ code_points "x" ∧
        c ∉ (@_PROFILERS demo_profilers).*1) ∧
  ∃ e, validation_error e ∧
    demo_run_profilers (RunPath "script.py") "x" true start = (Err e, start) ∧
    demo_run "f" "x" None None None None start = (Err e, start).
Proof.
  assert (¬ NoDup (code_points "x") ∨
   ∃ c, c ∈ code_points "x" ∧
        c ∉ (@_PROFILERS demo_profilers).*1) as Hbad.
  { right. exists "x".
    split; apply (bool_decide_unpack _); vm_compute; exact I. }
  split; [exact Hbad|].
  exact (@validation_failure_has_no_effect demo_profilers demo_library
           (RunPath "script.py") true "f" "x" None None None None start Hbad).
Defined.

Lemma result_stripped_before_send_witness :
  demo_run "f" "mc" None None None None start =
    (Ok (VInt 5),
     State (<[3%positive := ∅]> (<[2%positive := ∅]> module_heap))
       [ EvConstruct "m" (RunCall "f" [] kwargs_default); EvRun "m";
         EvDone "m" 2;
         EvConstruct "c" (RunCall "f" [] kwargs_default); EvRun "c";
         EvDone "c" 3;
         EvSend "http://localhost:8000"
           (String.list_byte_of_string "{m, c}") ]) ∧
  ∃ snap text vals,
    Forall (λ od : string * gmap string value, od.2 !! "result" = None) snap ∧
    dumps_keys snap = Ok text ∧
    String.list_byte_of_string "{m, c}" = String.list_byte_of_string text ∧
    length vals = 2%nat ∧
    pick_result VNone vals = Ok (VInt 5).
Proof.
  assert (demo_run "f" "mc" None None None None start =
    (Ok (VInt 5),
     State (<[3%positive := ∅]> (<[2%positive := ∅]> module_heap))
       [ EvConstruct "m" (RunCall "f" [] kwargs_default); EvRun "m";
         EvDone "m" 2;
         EvConstruct "c" (RunCall "f" [] kwargs_default); EvRun "c";
         EvDone "c" 3;
         EvSend "http://localhost:8000"
           (String.list_byte_of_string "{m, c}") ])) as Hrun
    by (vm_compute; reflexivity).
  split; [exact Hrun|].
  destruct (@result_stripped_before_send demo_profilers demo_library "f" "mc" None None None None start _ _ Hrun)
    as (evs & Htr & Hsend).
  change (trace start ++ evs) with evs in Htr. cbn [trace] in Htr. subst evs.
  destruct (Hsend "http://localhost:8000"
              (String.list_byte_of_string "{m, c}"))
    as (stats & s1 & snap & text & vals & v & Hrp & Hsnap & Hjs & Hdata
          & Hvals & Hv & Hr).
  { set_solver. }
  injection Hrp as <- <-.
  exists snap, text, vals. split; [|split; [done|split; [done|split]]].
  - clear -Hsnap. induction Hsnap as [|ol od stats snap (_ & _ & Hres) _ IH];
      constructor; done.
  - by apply Forall2_length in Hvals as <-.
  - simpl in Hr. injection Hr as <-. exact Hv.
Defined.


Lemma omitted_kwargs_share_default_witness :
  demo_run "f" "p" None None None None start =
    (Ok (VInt 0),
     State (<[5%positive := ∅]>
              (<[kwargs_default := {[ "seen" := VBool true ]}]> module_heap))
       [ EvConstruct "p" (RunCall "f" [] kwargs_default); EvRun "p";
         EvDone "p" 5;
         EvSend "http://localhost:8000" (String.list_byte_of_string "{p}") ]) ∧
  ∃ evs,
    trace (demo_run "f" "p" None None None None start).2 = trace start ++ evs ∧
    ∀ o run_object, EvConstruct o run_object ∈ evs →
      run_object = RunCall "f" [] kwargs_default.
Proof.
  assert (demo_run "f" "p" None None None None start =
    (Ok (VInt 0),
     State (<[5%positive := ∅]>
              (<[kwargs_default := {[ "seen" := VBool true ]}]> module_heap))
       [ EvConstruct "p" (RunCall "f" [] kwargs_default); EvRun "p";
         EvDone "p" 5;
         EvSend "http://localhost:8000" (String.list_byte_of_string "{p}") ]))
    as Hrun by (vm_compute; reflexivity).
  split; [exact Hrun|]. rewrite Hrun.
  exact (@omitted_kwargs_share_default demo_profilers demo_library
           "f" "p" None None None start _ _ Hrun).
Defined.

Lemma all_or_nothing_witness :
  demo_run "f" "mhp" None None None None start =
    (Err (Raised "RuntimeError" "no source"),
     State (<[2%positive := {[ "result" := VInt 0 ]}]> module_heap)
       [ EvConstruct "m" (RunCall "f" [] kwargs_default); EvRun "m";
         EvDone "m" 2;
         EvConstruct "h" (RunCall "f" [] kwargs_default); EvRun "h" ]) ∧
  NoDup (code_points "mhp") ∧
  Forall (λ o, o ∈ (@_PROFILERS demo_profilers).*1)
    (code_points "mhp") ∧
  @present_profilers demo_profilers
    (code_points "mhp")
    = [("m", mem_zero)] ++ ("h", heat_crash) :: [("p", prof_mark)] ∧
  run_present (RunCall "f" [] kwargs_default) false [("m", mem_zero)] []
    start
    = (Ok [("m", 2%positive)],
       State (<[2%positive := {[ "result" := VInt 0 ]}]> module_heap)
         [ EvConstruct "m" (RunCall "f" [] kwargs_default); EvRun "m";
           EvDone "m" 2 ]) ∧
  (∃ p h1,
     heat_crash (RunCall "f" [] kwargs_default)
       (<[2%positive := {[ "result" := VInt 0 ]}]> module_heap) = (Ok p, h1) ∧
     prof_run p h1 =
       (Err (Raised "RuntimeError" "no source"),
        <[2%positive := {[ "result" := VInt 0 ]}]> module_heap)) ∧
  ∃ evs,
    evs = [ EvConstruct "m" (RunCall "f" [] kwargs_default); EvRun "m";
            EvDone "m" 2;
            EvConstruct "h" (RunCall "f" [] kwargs_default); EvRun "h" ] ∧
    demo_run_profilers (RunCall "f" [] kwargs_default) "mhp" false start
      = (Err (Raised "RuntimeError" "no source"),
         State (<[2%positive := {[ "result" := VInt 0 ]}]> module_heap) evs) ∧
    Forall (λ ev, is_send ev = false) evs ∧
    Forall (λ ev, event_option ev ≠ Some "p") evs.
Proof.
  assert (demo_run "f" "mhp" None None None None start =
    (Err (Raised "RuntimeError" "no source"),
     State (<[2%positive := {[ "result" := VInt 0 ]}]> module_heap)
       [ EvConstruct "m" (RunCall "f" [] kwargs_default); EvRun "m";
         EvDone "m" 2;
         EvConstruct "h" (RunCall "f" [] kwargs_default); EvRun "h" ])) as Hrun
    by (vm_compute; reflexivity).
  assert (NoDup (code_points "mhp")) as Hnd.
  { apply (bool_decide_unpack _). vm_compute. exact I. }
  assert (Forall
            (λ o, o ∈ (@_PROFILERS demo_profilers).*1)
            (code_points "mhp")) as Hall.
  { apply (bool_decide_unpack _). vm_compute. exact I. }
  assert (run_present (RunCall "f" [] kwargs_default) false
            [("m", mem_zero)] [] start
          = (Ok [("m", 2%positive)],
             State (<[2%positive := {[ "result" := VInt 0 ]}]> module_heap)
               [ EvConstruct "m" (RunCall "f" [] kwargs_default); EvRun "m";
                 EvDone "m" 2 ])) as Hpre by (vm_compute; reflexivity).
  assert (∃ p h1,
     heat_crash (RunCall "f" [] kwargs_default)
       (<[2%positive := {[ "result" := VInt 0 ]}]> module_heap) = (Ok p, h1) ∧
     prof_run p h1 =
       (Err (Raised "RuntimeError" "no source"),
        <[2%positive := {[ "result" := VInt 0 ]}]> module_heap)) as Hfail.
  { eexists _, _. split; reflexivity. }
  split; [exact Hrun|]. split; [exact Hnd|]. split; [exact Hall|].
  split; [reflexivity|]. split; [exact Hpre|]. split; [exact Hfail|].
  destruct (@all_or_nothing demo_profilers demo_library
              "f" "mhp" None None None None start _ _ Hrun)
    as (evs & Htr & _ & Hfailing).
  change (trace start ++ evs) with evs in Htr. cbn [trace] in Htr. subst evs.
  destruct (Hfailing [("m", mem_zero)] "h" heat_crash
              [("p", prof_mark)] _ _ _ _ Hnd Hall eq_refl Hpre
              (or_intror Hfail))
    as (_ & _ & Hrp & Hnosend & Hpost).
  eexists. split; [reflexivity|]. split; [exact Hrp|]. split; [exact Hnosend|].
  apply Hpost. set_solver.
Defined.

(** ** The further properties at concrete runs *)

Lemma run_profilers_log_sequential_witness :
  demo_run_profilers (RunPath "script.py") "cm" true start =
    (Ok [("m", 2%positive); ("c", 3%positive)],
     State (<[3%positive := {[ "result" := VInt 5 ]}]>
              (<[2%positive := {[ "result" := VInt 0 ]}]> module_heap))
       [ EvConstruct "m" (RunPath "script.py");
         EvPrint "Running MemoryProfiler..."; EvRun "m"; EvDone "m" 2;
         EvConstruct "c" (RunPath "script.py");
         EvPrint "Running FlameGraphProfiler..."; EvRun "c"; EvDone "c" 3 ]) ∧
  ∃ entries : list (string * loc * string),
    ran_in_turn (RunPath "script.py") (heap start)
      (@present_profilers demo_profilers (code_points "cm")) entries
      (<[3%positive := {[ "result" := VInt 5 ]}]>
         (<[2%positive := {[ "result" := VInt 0 ]}]> module_heap)) ∧
    entries.*1 = [("m", 2%positive); ("c", 3%positive)] ∧
    [ EvConstruct "m" (RunPath "script.py");
      EvPrint "Running MemoryProfiler..."; EvRun "m"; EvDone "m" 2;
      EvConstruct "c" (RunPath "script.py");
      EvPrint "Running FlameGraphProfiler..."; EvRun "c"; EvDone "c" 3 ]
    = trace start ++
      concat (profiler_log (RunPath "script.py") true <$> entries).
Proof.
  assert (demo_run_profilers (RunPath "script.py") "cm" true start =
    (Ok [("m", 2%positive); ("c", 3%positive)],
     State (<[3%positive := {[ "result" := VInt 5 ]}]>
              (<[2%positive := {[ "result" := VInt 0 ]}]> module_heap))
       [ EvConstruct "m" (RunPath "script.py");
         EvPrint "Running MemoryProfiler..."; EvRun "m"; EvDone "m" 2;
         EvConstruct "c" (RunPath "script.py");
         EvPrint "Running FlameGraphProfiler..."; EvRun "c"; EvDone "c" 3 ]))
    as Hrun by (vm_compute; reflexivity).
  split; [exact Hrun|].
  exact (@run_profilers_log_sequential demo_profilers _ _ _ _ _ _ Hrun).
Defined.

Lemma run_profilers_error_source_witness :
  demo_run_profilers (RunCall "f" [] kwargs_default) "mhp" false start =
    (Err (Raised "RuntimeError" "no source"),
     State (<[2%positive := {[ "result" := VInt 0 ]}]> module_heap)
       [ EvConstruct "m" (RunCall "f" [] kwargs_default); EvRun "m";
         EvDone "m" 2;
         EvConstruct "h" (RunCall "f" [] kwargs_default); EvRun "h" ]) ∧
  ((validation_error (Raised "RuntimeError" "no source") ∧
    State (<[2%positive := {[ "result" := VInt 0 ]}]> module_heap)
      [ EvConstruct "m" (RunCall "f" [] kwargs_default); EvRun "m";
        EvDone "m" 2;
        EvConstruct "h" (RunCall "f" [] kwargs_default); EvRun "h" ] = start ∧
    (¬ NoDup (code_points "mhp") ∨
     ¬ Forall (λ o, o ∈ (@_PROFILERS demo_profilers).*1)
         (code_points "mhp"))) ∨
   ∃ pre o cls post stats1 s1,
     @present_profilers demo_profilers (code_points "mhp")
       = pre ++ (o, cls) :: post ∧
     run_present (RunCall "f" [] kwargs_default) false pre [] start
       = (Ok stats1, s1) ∧
     (cls (RunCall "f" [] kwargs_default) (heap s1)
        = (Err (Raised "RuntimeError" "no source"),
           <[2%positive := {[ "result" := VInt 0 ]}]> module_heap) ∨
      ∃ p h1, cls (RunCall "f" [] kwargs_default) (heap s1) = (Ok p, h1) ∧
              prof_run p h1
                = (Err (Raised "RuntimeError" "no source"),
                   <[2%positive := {[ "result" := VInt 0 ]}]> module_heap))).
Proof.
  assert (demo_run_profilers (RunCall "f" [] kwargs_default) "mhp" false start =
    (Err (Raised "RuntimeError" "no source"),
     State (<[2%positive := {[ "result" := VInt 0 ]}]> module_heap)
       [ EvConstruct "m" (RunCall "f" [] kwargs_default); EvRun "m";
         EvDone "m" 2;
         EvConstruct "h" (RunCall "f" [] kwargs_default); EvRun "h" ])) as Hrun
    by (vm_compute; reflexivity).
  split; [exact Hrun|].
  exact (@run_profilers_error_source demo_profilers _ _ _ _ _ _ Hrun).
Defined.

Lemma run_profilers_order_irrelevant_witness :
  NoDup (code_points "mc") ∧
  Forall (λ o, o ∈ (@_PROFILERS demo_profilers).*1)
    (code_points "mc") ∧
  code_points "cm" ≡ₚ code_points "mc" ∧
  demo_run_profilers (RunPath "script.py") "cm" true start =
    demo_run_profilers (RunPath "script.py") "mc" true start.
Proof.
  assert (NoDup (code_points "mc")) as Hnd.
  { apply (bool_decide_unpack _). vm_compute. exact I. }
  assert (Forall (λ o, o ∈ (@_PROFILERS demo_profilers).*1)
            (code_points "mc")) as Hall.
  { apply (bool_decide_unpack _). vm_compute. exact I. }
  assert (code_points "cm" ≡ₚ code_points "mc")
    as Hperm by apply perm_swap.
  split; [exact Hnd|]. split; [exact Hall|]. split; [exact Hperm|].
  exact (@run_profilers_order_irrelevant demo_profilers
           (RunPath "script.py") "mc" "cm" true start Hnd Hall Hperm).
Defined.

Lemma import_runner_once_witness :
  import_runner (Ok 4096) ∅ = Ok {[ "initial_rss_size" := VInt 4096 ]} ∧
  is_Some (({[ "initial_rss_size" := VInt 4096 ]} : gmap string value)
             !! "initial_rss_size") ∧
  import_runner (Err (Raised "NoSuchProcess" "gone"))
    {[ "initial_rss_size" := VInt 4096 ]}
    = Ok {[ "initial_rss_size" := VInt 4096 ]}.
Proof.
  assert (import_runner (Ok 4096) ∅
          = Ok {[ "initial_rss_size" := VInt 4096 ]}) as Himp
    by (vm_compute; reflexivity).
  split; [exact Himp|].
  exact (import_runner_once (Ok 4096) (Err (Raised "NoSuchProcess" "gone"))
           ∅ _ Himp).
Defined.


Lemma run_strips_in_place_witness :
  demo_run "f" "mc" None None None None start =
    (Ok (VInt 5),
     State (<[3%positive := ∅]> (<[2%positive := ∅]> module_heap))
       [ EvConstruct "m" (RunCall "f" [] kwargs_default); EvRun "m";
         EvDone "m" 2;
         EvConstruct "c" (RunCall "f" [] kwargs_default); EvRun "c";
         EvDone "c" 3;
         EvSend "http://localhost:8000"
           (String.list_byte_of_string "{m, c}") ]) ∧
  demo_run_profilers (RunCall "f" [] kwargs_default) "mc" false start =
    (Ok [("m", 2%positive); ("c", 3%positive)],
     State (<[3%positive := {[ "result" := VInt 5 ]}]>
              (<[2%positive := {[ "result" := VInt 0 ]}]> module_heap))
       [ EvConstruct "m" (RunCall "f" [] kwargs_default); EvRun "m";
         EvDone "m" 2;
         EvConstruct "c" (RunCall "f" [] kwargs_default); EvRun "c";
         EvDone "c" 3 ]) ∧
  ∀ l : loc,
    (<[3%positive := ∅]> (<[2%positive := ∅]> module_heap)) !! l =
      if decide (l ∈ [("m", 2%positive); ("c", 3%positive)].*2)
      then delete "result" <$>
             (<[3%positive := {[ "result" := VInt 5 ]}]>
                (<[2%positive := {[ "result" := VInt 0 ]}]> module_heap)) !! l
      else (<[3%positive := {[ "result" := VInt 5 ]}]>
              (<[2%positive := {[ "result" := VInt 0 ]}]> module_heap)) !! l.
Proof.
  assert (demo_run "f" "mc" None None None None start =
    (Ok (VInt 5),
     State (<[3%positive := ∅]> (<[2%positive := ∅]> module_heap))
       [ EvConstruct "m" (RunCall "f" [] kwargs_default); EvRun "m";
         EvDone "m" 2;
         EvConstruct "c" (RunCall "f" [] kwargs_default); EvRun "c";
         EvDone "c" 3;
         EvSend "http://localhost:8000"
           (String.list_byte_of_string "{m, c}") ])) as Hrun
    by (vm_compute; reflexivity).
  assert (demo_run_profilers (RunCall "f" [] kwargs_default) "mc" false start =
    (Ok [("m", 2%positive); ("c", 3%positive)],
     State (<[3%positive := {[ "result" := VInt 5 ]}]>
              (<[2%positive := {[ "result" := VInt 0 ]}]> module_heap))
       [ EvConstruct "m" (RunCall "f" [] kwargs_default); EvRun "m";
         EvDone "m" 2;
         EvConstruct "c" (RunCall "f" [] kwargs_default); EvRun "c";
         EvDone "c" 3 ])) as Hrp by (vm_compute; reflexivity).
  split; [exact Hrun|]. split; [exact Hrp|].
  exact (@run_strips_in_place demo_profilers demo_library
           "f" "mc" None None None None start _ _ _ _ Hrun Hrp).
Defined.

Lemma run_outcome_witness :
  demo_run_profilers (RunCall "f" [] kwargs_default) "mc" false start =
    (Ok [("m", 2%positive); ("c", 3%positive)],
     State (<[3%positive := {[ "result" := VInt 5 ]}]>
              (<[2%positive := {[ "result" := VInt 0 ]}]> module_heap))
       [ EvConstruct "m" (RunCall "f" [] kwargs_default); EvRun "m";
         EvDone "m" 2;
         EvConstruct "c" (RunCall "f" [] kwargs_default); EvRun "c";
         EvDone "c" 3 ]) ∧
  snapshot (<[3%positive := {[ "result" := VInt 5 ]}]>
              (<[2%positive := {[ "result" := VInt 0 ]}]> module_heap))
    [("m", 2%positive); ("c", 3%positive)]
    = Some [("m", {[ "result" := VInt 0 ]});
            ("c", {[ "result" := VInt 5 ]})] ∧
  NoDup [("m", 2%positive); ("c", 3%positive)].*2 ∧
  Forall (λ od : string * gmap string value, is_Some (od.2 !! "result"))
    [("m", {[ "result" := VInt 0 ]});
     ("c", {[ "result" := VInt 5 ]})] ∧
  (demo_run "f" "mc" None None None None start).1 = Ok (VInt 5).
Proof.
  assert (demo_run_profilers (RunCall "f" [] kwargs_default) "mc" false start =
    (Ok [("m", 2%positive); ("c", 3%positive)],
     State (<[3%positive := {[ "result" := VInt 5 ]}]>
              (<[2%positive := {[ "result" := VInt 0 ]}]> module_heap))
       [ EvConstruct "m" (RunCall "f" [] kwargs_default); EvRun "m";
         EvDone "m" 2;
         EvConstruct "c" (RunCall "f" [] kwargs_default); EvRun "c";
         EvDone "c" 3 ])) as Hrp by (vm_compute; reflexivity).
  assert (snapshot (<[3%positive := {[ "result" := VInt 5 ]}]>
              (<[2%positive := {[ "result" := VInt 0 ]}]> module_heap))
    [("m", 2%positive); ("c", 3%positive)]
    = Some [("m", {[ "result" := VInt 0 ]});
            ("c", {[ "result" := VInt 5 ]})]) as Hrecs
    by (vm_compute; reflexivity).
  assert (NoDup [("m", 2%positive); ("c", 3%positive)].*2) as Hnd.
  { apply (bool_decide_unpack _). vm_compute. exact I. }
  assert (Forall (λ od : string * gmap string value,
                    is_Some (od.2 !! "result"))
    [("m", {[ "result" := VInt 0 ]});
     ("c", {[ "result" := VInt 5 ]})]) as Hres.
  { repeat constructor; by eexists. }
  split; [exact Hrp|]. split; [exact Hrecs|]. split; [exact Hnd|].
  split; [exact Hres|]. unfold demo_run.
  rewrite (@run_outcome demo_profilers demo_library
             "f" "mc" None None None None start _ _ _ Hrp Hrecs Hnd Hres).
  vm_compute. reflexivity.
Defined.

Lemma run_returns_first_truthy_or_last_witness :
  demo_run "f" "mc" None None None None start =
    (Ok (VInt 5),
     State (<[3%positive := ∅]> (<[2%positive := ∅]> module_heap))
       [ EvConstruct "m" (RunCall "f" [] kwargs_default); EvRun "m";
         EvDone "m" 2;
         EvConstruct "c" (RunCall "f" [] kwargs_default); EvRun "c";
         EvDone "c" 3;
         EvSend "http://localhost:8000"
           (String.list_byte_of_string "{m, c}") ]) ∧
  ∃ stats s1 vals,
    demo_run_profilers (RunCall "f" [] kwargs_default) "mc" false start
      = (Ok stats, s1) ∧
    Forall2 (λ ol val, ∃ d, heap s1 !! ol.2 = Some d ∧
                            d !! "result" = Some val) stats vals ∧
    ((∃ pre post, vals = pre ++ VInt 5 :: post ∧
        Forall (λ x, truthy x = Ok false) pre ∧ truthy (VInt 5) = Ok true) ∨
     (∃ init, vals = init ++ [VInt 5] ∧
        Forall (λ x, truthy x = Ok false) init ∧
        truthy (VInt 5) ≠ Ok true) ∨
     (vals = [] ∧ VInt 5 = VNone)).
Proof.
  assert (demo_run "f" "mc" None None None None start =
    (Ok (VInt 5),
     State (<[3%positive := ∅]> (<[2%positive := ∅]> module_heap))
       [ EvConstruct "m" (RunCall "f" [] kwargs_default); EvRun "m";
         EvDone "m" 2;
         EvConstruct "c" (RunCall "f" [] kwargs_default); EvRun "c";
         EvDone "c" 3;
         EvSend "http://localhost:8000"
           (String.list_byte_of_string "{m, c}") ])) as Hrun
    by (vm_compute; reflexivity).
  split; [exact Hrun|].
  exact (@run_returns_first_truthy_or_last demo_profilers demo_library
           "f" "mc" None None None None start _ _ Hrun).
Defined.


(** ** The corrected claims at concrete runs *)

(** C3 fails on the code as it is stated: a run that reaches transmission
    and does not return the value. The host refuses the connection: the
    request is in the log, both records have lost ["result"], and [run]
    raises the error of [urlopen]. *)
Lemma sent_but_not_returned :
  @run demo_profilers offline_library "f" "mc" None None None None start =
    (Err (Raised "URLError" "Connection refused"),
     State (<[3%positive := ∅]> (<[2%positive := ∅]> module_heap))
       [ EvConstruct "m" (RunCall "f" [] kwargs_default); EvRun "m";
         EvDone "m" 2;
         EvConstruct "c" (RunCall "f" [] kwargs_default); EvRun "c";
         EvDone "c" 3;
         EvSend "http://localhost:8000"
           (String.list_byte_of_string "{m, c}") ]).
Proof. vm_compute. reflexivity. Qed.



